(** * LinkedIn Search Everywhere API: the content-analysis route

    A shallow embedding of [src/server.js]: the route
    [POST /api/analyze-content], the resolver [analyzeWithOpenAI] and the
    keyword generator [generateFallbackSuggestions], together with the
    parts of the JavaScript host they rely on (strings of UTF-16 code
    units, truthiness, [String.prototype.includes], [trim], the two
    fence-removing [replace] calls and [JSON.parse]).

    The external API, the clock and the environment variable are fields of
    an [Env]; what the program writes to the console, its calls of the
    resolver and its requests to the API are recorded in a trace.  The
    resolver of the earlier copy of the server (src/unnamed/part_000) is
    embedded next to the current one. *)

From Stdlib Require Import String Ascii.
From Stdlib Require Import List Sorted NArith ZArith Bool Lia.
Import ListNotations.

Set Warnings "-register-all,-notation-for-abbreviation,-abstract-large-number".

(** ** The JavaScript host *)

Module JS.

(** A JavaScript string is a sequence of UTF-16 code units. *)
Definition jsstring := list N.

(** An ASCII literal of the source, as code units. *)
Definition js (s : string) : jsstring :=
  map N_of_ascii (list_ascii_of_string s).

Definition dquote : N := 34.
Definition newline : N := 10.

Fixpoint str_eqb (a b : jsstring) : bool :=
  match a, b with
  | [], [] => true
  | x :: a', y :: b' => (x =? y)%N && str_eqb a' b'
  | _, _ => false
  end.

(** [starts_with p s]: [p] is a prefix of [s]. *)
Fixpoint starts_with (p s : jsstring) : bool :=
  match p, s with
  | [], _ => true
  | _ :: _, [] => false
  | a :: p', b :: s' => (a =? b)%N && starts_with p' s'
  end.

(** [s.includes(kw)] *)
Fixpoint includes (s kw : jsstring) : bool :=
  starts_with kw s ||
  match s with
  | [] => false
  | _ :: s' => includes s' kw
  end.

(** [s.substring(0, n)] *)
Definition substring0 (n : nat) (s : jsstring) : jsstring := firstn n s.

(** White space and line terminators, as [String.prototype.trim] sees
    them. *)
Definition is_space (c : N) : bool :=
  ((9 <=? c) && (c <=? 13) || (c =? 32) || (c =? 160) || (c =? 5760)
   || (8192 <=? c) && (c <=? 8202) || (c =? 8232) || (c =? 8233)
   || (c =? 8239) || (c =? 8287) || (c =? 12288) || (c =? 65279))%N.

Fixpoint trim_start (s : jsstring) : jsstring :=
  match s with
  | c :: s' => if is_space c then trim_start s' else s
  | [] => []
  end.

(** [s.trim()] *)
Definition trim (s : jsstring) : jsstring :=
  rev (trim_start (rev (trim_start s))).

(** Length of the match of [/lit\n?/] at the head of [s], given that [lit]
    is a prefix of [s]: the optional line feed is taken when present. *)
Definition fence_match_length (lit s : jsstring) : nat :=
  List.length lit +
  match skipn (List.length lit) s with
  | c :: _ => if (c =? newline)%N then 1 else 0
  | [] => 0
  end.

(** [s.replace(/lit\n?/g, '')] for a non-empty literal [lit]: the string is
    scanned once from the left; [skip] counts the code units of the current
    match that are still to be dropped. *)
Fixpoint remove_all (lit : jsstring) (skip : nat) (s : jsstring) : jsstring :=
  match s with
  | [] => []
  | c :: s' =>
      match skip with
      | S k => remove_all lit k s'
      | O =>
          if starts_with lit s
          then remove_all lit (fence_match_length lit s - 1) s'
          else c :: remove_all lit 0 s'
      end
  end.

(** The ASCII part of [String.prototype.toLowerCase]. *)
Definition is_ascii (c : N) : bool := (c <? 128)%N.

Definition ascii_lower (c : N) : N :=
  if ((65 <=? c) && (c <=? 90))%N then (c + 32)%N else c.

(** *** Numbers

    A number read from JSON text is kept as the decimal it was written as,
    [(-1)^neg * mantissa * 10^exponent]; the host rounds it to a double.
    The program only asks of a number whether it is falsy and whether it is
    below 10, and both answers are computed for the rounded value. *)
Record number := Num { neg : bool; mantissa : N; exponent : Z }.

Definition of_nat (n : nat) : number := Num false (N.of_nat n) 0.

(** The decimal rounds to zero: it is zero, or at most [2^-1075], half of
    the least positive double (the tie goes to the even neighbour, 0). *)
Definition rounds_to_zero (n : number) : bool :=
  ((mantissa n =? 0)%N ||
   (exponent n <? 0)%Z &&
   (Z.of_N (mantissa n) * 2 ^ 1075 <=? 10 ^ (- exponent n))%Z).

(** [n < 10] on the rounded value.  The doubles next to 10 are [2^-49]
    apart and 10 is the even one, so a positive decimal rounds below 10
    exactly when it is below [10 - 2^-50]. *)
Definition below_ten (n : number) : bool :=
  if neg n then true
  else if (0 <=? exponent n)%Z
  then (Z.of_N (mantissa n) * 10 ^ exponent n * 2 ^ 50 <? 10 * 2 ^ 50 - 1)%Z
  else (Z.of_N (mantissa n) * 2 ^ 50 <? (10 * 2 ^ 50 - 1) * 10 ^ (- exponent n))%Z.

(** *** Values

    The values [JSON.parse] can build.  [undefined] is not among them: a
    value that may be undefined is an [option Json]. *)
Inductive Json :=
| JNull
| JBool (b : bool)
| JNum (n : number)
| JStr (s : jsstring)
| JArr (elements : list Json)
| JObj (members : list (jsstring * Json)).

Definition value := option Json.
Definition undefined : value := None.

(** Truthiness ([!v], [v || d]). *)
Definition truthy (v : value) : bool :=
  match v with
  | None | Some JNull => false
  | Some (JBool b) => b
  | Some (JNum n) => negb (rounds_to_zero n)
  | Some (JStr s) => match s with [] => false | _ => true end
  | Some (JArr _) | Some (JObj _) => true
  end.

(** [a || d] where [d] is a string literal. *)
Definition or_default (v : value) (d : jsstring) : Json :=
  match v with
  | Some j => if truthy v then j else JStr d
  | None => JStr d
  end.

(** Own property of an object built from JSON text: of duplicate member
    names the last one wins. *)
Fixpoint own_property (k : jsstring) (ms : list (jsstring * Json)) : value :=
  match ms with
  | [] => None
  | (k', v) :: ms' =>
      match own_property k ms' with
      | Some w => Some w
      | None => if str_eqb k k' then Some v else None
      end
  end.

Definition is_string (j : Json) : bool :=
  match j with JStr _ => true | _ => false end.

(** *** Failures *)

Record Error := mkError { message : jsstring }.

Definition TypeError (msg : string) : Error := mkError (js msg).

Inductive completion (A : Type) :=
| Normal (a : A)
| Throw (e : Error).
Arguments Normal {A} a.
Arguments Throw {A} e.

(** [v.name] for a data property [name] that none of the built-in
    prototypes defines ([content], [title], [description]): reading it from
    [null] throws, an object yields its own member, every other value
    yields [undefined]. *)
Definition get (v : Json) (name : string) : completion value :=
  match v with
  | JNull =>
      Throw (mkError (js "Cannot read properties of null (reading '" ++
                      js name ++ js "')"))
  | JObj ms => Normal (own_property (js name) ms)
  | _ => Normal undefined
  end.

(** [v.length] of a value other than [null]. *)
Definition get_length (v : Json) : value :=
  match v with
  | JStr s => Some (JNum (of_nat (List.length s)))
  | JArr l => Some (JNum (of_nat (List.length l)))
  | JObj ms => own_property (js "length") ms
  | _ => undefined
  end.

(** *** JSON.parse *)

Definition is_json_ws (c : N) : bool :=
  ((c =? 9) || (c =? 10) || (c =? 13) || (c =? 32))%N.

Fixpoint skip_ws (s : jsstring) : jsstring :=
  match s with
  | c :: s' => if is_json_ws c then skip_ws s' else s
  | [] => []
  end.

Definition is_digit (c : N) : bool := ((48 <=? c) && (c <=? 57))%N.

Definition hex_digit (c : N) : option N :=
  if is_digit c then Some (c - 48)%N
  else if ((97 <=? c) && (c <=? 102))%N then Some (c - 87)%N
  else if ((65 <=? c) && (c <=? 70))%N then Some (c - 55)%N
  else None.

Fixpoint span_digits (s : jsstring) : jsstring * jsstring :=
  match s with
  | c :: s' =>
      if is_digit c
      then let (ds, r) := span_digits s' in (c :: ds, r)
      else ([], s)
  | [] => ([], [])
  end.

Definition digits_value (ds : jsstring) : N :=
  fold_left (fun acc c => (10 * acc + (c - 48))%N) ds 0%N.

(** The characters of a string literal after its opening quote. *)
Fixpoint parse_chars (s : jsstring) (acc : jsstring)
  : option (jsstring * jsstring) :=
  match s with
  | [] => None
  | c :: r =>
      if (c =? 34)%N then Some (rev acc, r)
      else if (c =? 92)%N then
        match r with
        | [] => None
        | e :: r1 =>
            if (e =? 34)%N then parse_chars r1 (34%N :: acc)
            else if (e =? 92)%N then parse_chars r1 (92%N :: acc)
            else if (e =? 47)%N then parse_chars r1 (47%N :: acc)
            else if (e =? 98)%N then parse_chars r1 (8%N :: acc)
            else if (e =? 102)%N then parse_chars r1 (12%N :: acc)
            else if (e =? 110)%N then parse_chars r1 (10%N :: acc)
            else if (e =? 114)%N then parse_chars r1 (13%N :: acc)
            else if (e =? 116)%N then parse_chars r1 (9%N :: acc)
            else if (e =? 117)%N then
              match r1 with
              | h1 :: h2 :: h3 :: h4 :: r2 =>
                  match hex_digit h1, hex_digit h2, hex_digit h3, hex_digit h4 with
                  | Some a, Some b, Some c', Some d =>
                      parse_chars r2 ((4096 * a + 256 * b + 16 * c' + d)%N :: acc)
                  | _, _, _, _ => None
                  end
              | _ => None
              end
            else None
        end
      else if (c <? 32)%N then None
      else parse_chars r (c :: acc)
  end.

(** A number literal: an optional minus sign; 0, or a non-zero digit and
    more digits; optionally a point and one or more digits; optionally an
    exponent mark, a sign and one or more digits. *)
Definition parse_sign (s : jsstring) : bool * jsstring :=
  match s with
  | c :: r => if (c =? 45)%N then (true, r) else (false, s)
  | [] => (false, s)
  end.

Definition parse_int (s : jsstring) : option (jsstring * jsstring) :=
  match s with
  | c :: r =>
      if (c =? 48)%N then Some ([c], r)
      else if is_digit c then Some (span_digits s)
      else None
  | [] => None
  end.

(** One or more digits. *)
Definition parse_digits (s : jsstring) : option (jsstring * jsstring) :=
  match span_digits s with
  | ([], _) => None
  | (ds, r) => Some (ds, r)
  end.

Definition parse_frac (s : jsstring) : option (jsstring * jsstring) :=
  match s with
  | c :: r => if (c =? 46)%N then parse_digits r else Some ([], s)
  | [] => Some ([], s)
  end.

Definition parse_exp_sign (s : jsstring) : bool * jsstring :=
  match s with
  | c :: r =>
      if (c =? 45)%N then (true, r)
      else if (c =? 43)%N then (false, r)
      else (false, s)
  | [] => (false, s)
  end.

Definition parse_exp (s : jsstring) : option (Z * jsstring) :=
  match s with
  | c :: r =>
      if ((c =? 101) || (c =? 69))%N then
        let (eneg, r1) := parse_exp_sign r in
        match parse_digits r1 with
        | None => None
        | Some (eds, r2) =>
            let e := Z.of_N (digits_value eds) in
            Some (if eneg then (- e)%Z else e, r2)
        end
      else Some (0%Z, s)
  | [] => Some (0%Z, s)
  end.

Definition parse_number (s : jsstring) : option (number * jsstring) :=
  let (sign, s1) := parse_sign s in
  match parse_int s1 with
  | None => None
  | Some (ids, s2) =>
      match parse_frac s2 with
      | None => None
      | Some (fds, s3) =>
          match parse_exp s3 with
          | None => None
          | Some (e, s4) =>
              Some (Num sign (digits_value (ids ++ fds))
                        (e - Z.of_nat (List.length fds)), s4)
          end
      end
  end.

(** [expect lit s]: the rest of [s] after the literal [lit]. *)
Definition expect (lit s : jsstring) : option jsstring :=
  if starts_with lit s then Some (skipn (List.length lit) s) else None.

(** Values, array elements and object members.  Every call spends one unit
    of [fuel]; a call chain of depth [d] has read at least [d / 2] code
    units, so [2 * length + 2] units are enough for every text. *)
Fixpoint parse_value (fuel : nat) (s : jsstring) : option (Json * jsstring) :=
  match fuel with
  | O => None
  | S f =>
      match skip_ws s with
      | [] => None
      | c :: r =>
          if (c =? 110)%N then
            option_map (fun r' => (JNull, r')) (expect (js "null") (c :: r))
          else if (c =? 116)%N then
            option_map (fun r' => (JBool true, r')) (expect (js "true") (c :: r))
          else if (c =? 102)%N then
            option_map (fun r' => (JBool false, r')) (expect (js "false") (c :: r))
          else if (c =? 34)%N then
            option_map (fun p => (JStr (fst p), snd p)) (parse_chars r [])
          else if (c =? 91)%N then
            match skip_ws r with
            | c' :: r' =>
                if (c' =? 93)%N then Some (JArr [], r')
                else parse_elements f r []
            | [] => None
            end
          else if (c =? 123)%N then
            match skip_ws r with
            | c' :: r' =>
                if (c' =? 125)%N then Some (JObj [], r')
                else parse_members f r []
            | [] => None
            end
          else
            option_map (fun p => (JNum (fst p), snd p)) (parse_number (c :: r))
      end
  end

with parse_elements (fuel : nat) (s : jsstring) (acc : list Json)
  : option (Json * jsstring) :=
  match fuel with
  | O => None
  | S f =>
      match parse_value f s with
      | None => None
      | Some (v, r) =>
          match skip_ws r with
          | c :: r' =>
              if (c =? 44)%N then parse_elements f r' (v :: acc)
              else if (c =? 93)%N then Some (JArr (rev (v :: acc)), r')
              else None
          | [] => None
          end
      end
  end

with parse_members (fuel : nat) (s : jsstring) (acc : list (jsstring * Json))
  : option (Json * jsstring) :=
  match fuel with
  | O => None
  | S f =>
      match skip_ws s with
      | c :: r =>
          if (c =? 34)%N then
            match parse_chars r [] with
            | None => None
            | Some (k, r1) =>
                match skip_ws r1 with
                | c1 :: r2 =>
                    if (c1 =? 58)%N then
                      match parse_value f r2 with
                      | None => None
                      | Some (v, r3) =>
                          match skip_ws r3 with
                          | c3 :: r4 =>
                              if (c3 =? 44)%N
                              then parse_members f r4 ((k, v) :: acc)
                              else if (c3 =? 125)%N
                              then Some (JObj (rev ((k, v) :: acc)), r4)
                              else None
                          | [] => None
                          end
                      end
                    else None
                | [] => None
                end
            end
          else None
      | [] => None
      end
  end.

(** [JSON.parse(text)]; [None] stands for the [SyntaxError] it throws. *)
Definition JSON_parse (text : jsstring) : option Json :=
  match parse_value (2 * List.length text + 2) text with
  | Some (v, rest) =>
      match skip_ws rest with
      | [] => Some v
      | _ :: _ => None
      end
  | None => None
  end.

End JS.

Import JS.

(** ** Effects

    A computation ends normally or throws, and leaves a trace: what it
    wrote to the console, each entry into the resolver and each request
    sent to the external API. *)

Inductive event :=
| ConsoleLog (preview : jsstring)
| ConsoleWarn (text : jsstring)
| ConsoleError (label : jsstring) (e : Error)
| ResolverCall (content : Json)
| ExternalCall (user_message : jsstring).

Definition M (A : Type) : Type := (completion A * list event)%type.

Definition ret {A} (a : A) : M A := (Normal a, []).
Definition throw {A} (e : Error) : M A := (Throw e, []).
Definition tell (ev : event) : M unit := (Normal tt, [ev]).
Definition lift {A} (c : completion A) : M A := (c, []).

Definition bind {A B} (m : M A) (f : A -> M B) : M B :=
  match m with
  | (Normal a, t) => let (r, t') := f a in (r, t ++ t')
  | (Throw e, t) => (Throw e, t)
  end.

(** [try { m } catch (error) { h error }] *)
Definition try_catch {A} (m : M A) (h : Error -> M A) : M A :=
  match m with
  | (Normal a, t) => (Normal a, t)
  | (Throw e, t) => let (r, t') := h e in (r, t ++ t')
  end.

Notation "x <- m ;; k" := (bind m (fun x => k))
  (at level 61, m at next level, right associativity).
Notation "m ;;; k" := (bind m (fun _ => k))
  (at level 61, right associativity).

Definition result {A} (m : M A) : completion A := fst m.
Definition trace {A} (m : M A) : list event := snd m.

Definition is_resolver_call (ev : event) : bool :=
  match ev with ResolverCall _ => true | _ => false end.

Definition is_external_call (ev : event) : bool :=
  match ev with ExternalCall _ => true | _ => false end.

Fixpoint map_completion {A B} (f : A -> completion B) (l : list A)
  : completion (list B) :=
  match l with
  | [] => Normal []
  | x :: l' =>
      match f x with
      | Throw e => Throw e
      | Normal y =>
          match map_completion f l' with
          | Throw e => Throw e
          | Normal ys => Normal (y :: ys)
          end
      end
  end.

(** ** The process environment and the external API *)

(** What [openai.chat.completions.create] does with a request: it rejects,
    or it resolves with a response whose first choice carries the message
    text ([None] when that text is [null]). *)
Inductive reply :=
| Rejected (e : Error)
| Completed (content : option jsstring).

Record Env := mkEnv {
  (** [process.env.OPENAI_API_KEY] *)
  OPENAI_API_KEY : option jsstring;
  (** [require('openai')] and the client built from it: loading may throw;
      otherwise the client answers a user message *)
  openai : completion (jsstring -> reply);
  (** [new Date().toISOString()] *)
  now : jsstring
}.

(** [!process.env.OPENAI_API_KEY] *)
Definition no_api_key (env : Env) : bool :=
  match OPENAI_API_KEY env with
  | None | Some [] => true
  | Some (_ :: _) => false
  end.

(** ** Suggestions and responses *)

Record Suggestion := mkSuggestion { title : Json; description : Json }.

(** The object [{ title: t, description: d }]. *)
Definition to_object (s : Suggestion) : Json :=
  JObj [(js "title", title s); (js "description", description s)].

Inductive Body :=
| ErrorBody (error : jsstring)
| AnalysisBody (suggestions : list Suggestion) (timestamp : jsstring)
               (contentLength : value).

Record Response := mkResponse { status : nat; body : Body }.

Definition data_suggestion : Suggestion :=
  mkSuggestion
    (JStr (js "Data Analytics Courses"))
    (JStr (js "Explore data science and analytics courses on LinkedIn Learning")).

Definition marketing_suggestion : Suggestion :=
  mkSuggestion
    (JStr (js "Digital Marketing Resources"))
    (JStr (js "Find marketing professionals and learning resources")).

Definition leadership_suggestion : Suggestion :=
  mkSuggestion
    (JStr (js "Leadership Development"))
    (JStr (js "Connect with leaders and explore management courses")).

Definition tech_suggestion : Suggestion :=
  mkSuggestion
    (JStr (js "Technology Skills"))
    (JStr (js "Discover the latest tech courses and connect with developers")).

Definition default_suggestions : list Suggestion :=
  [ mkSuggestion
      (JStr (js "Professional Development"))
      (JStr (js "Discover learning opportunities related to this topic"));
    mkSuggestion
      (JStr (js "Network Growth"))
      (JStr (js "Connect with professionals in your field")) ].

Definition default_title : jsstring := js "Professional Development".
Definition default_description : jsstring :=
  js "Explore related opportunities on LinkedIn".

(** [content.substring(0, n)]: only a string has the method. *)
Definition call_substring (content : Json) (n : nat) : completion jsstring :=
  match content with
  | JStr s => Normal (substring0 n s)
  | JNull =>
      Throw (TypeError "Cannot read properties of null (reading 'substring')")
  | _ => Throw (TypeError "content.substring is not a function")
  end.

(** [const { content } = req.body] *)
Definition destructure_content (req_body : Json) : completion value :=
  match req_body with
  | JNull =>
      Throw (TypeError
        "Cannot destructure property 'content' of 'req.body' as it is null.")
  | JObj ms => Normal (own_property (js "content") ms)
  | _ => Normal undefined
  end.

(** The [catch] block of the route (server.js, lines 98-108). *)
Definition on_error (error : Error) : Response :=
  if includes (message error) (js "API key") then
    mkResponse 500 (ErrorBody (js "Service configuration error"))
  else if includes (message error) (js "rate limit") then
    mkResponse 429 (ErrorBody (js "Service temporarily busy, please try again"))
  else
    mkResponse 500 (ErrorBody (js "Analysis temporarily unavailable")).

Definition bad_request : Response :=
  mkResponse 400
    (ErrorBody (js "Content is required and must be at least 10 characters long")).

(** [suggestion => ({ title: suggestion.title || "Professional Development",
    description: suggestion.description ||
    "Explore related opportunities on LinkedIn" })] *)
Definition ensure_format (suggestion : Json) : completion Suggestion :=
  match get suggestion "title" with
  | Throw e => Throw e
  | Normal t =>
      match get suggestion "description" with
      | Throw e => Throw e
      | Normal d =>
          Normal (mkSuggestion (or_default t default_title)
                               (or_default d default_description))
      end
  end.

(** The user message of the request (server.js, line 145). *)
Definition user_message (content_prefix : jsstring) : jsstring :=
  js "Analyze this LinkedIn content: " ++ [dquote] ++ content_prefix ++ [dquote].

(** The clean-up of the response text (server.js, lines 152-155). *)
Definition clean_up (content : jsstring) : jsstring :=
  let responseContent := trim content in
  trim (remove_all (js "```") 0 (remove_all (js "```json") 0 responseContent)).

(** ** The vocabulary of the specification *)

(** [Contains s kw]: [kw] occurs in [s]. *)
Definition Contains (s kw : jsstring) : Prop :=
  exists pre post, s = pre ++ kw ++ post.

(** The four keyword families, in their order of precedence. *)
Inductive family := Data | Marketing | Leadership | Tech.

Definition precedence : list family := [Data; Marketing; Leadership; Tech].

Definition keywords (f : family) : list jsstring :=
  match f with
  | Data => [js "data"; js "analytics"; js "analysis"]
  | Marketing => [js "marketing"; js "brand"; js "campaign"]
  | Leadership => [js "leadership"; js "management"; js "team"]
  | Tech => [js "tech"; js "software"; js "developer"]
  end.

Definition twelve_keywords : list jsstring := flat_map keywords precedence.

Definition rank (f : family) : nat :=
  match f with Data => 0 | Marketing => 1 | Leadership => 2 | Tech => 3 end.

Definition suggestion_of (f : family) : Suggestion :=
  match f with
  | Data => data_suggestion
  | Marketing => marketing_suggestion
  | Leadership => leadership_suggestion
  | Tech => tech_suggestion
  end.

(** A family matches when the lower-cased content contains one of its
    keywords. *)
Definition family_matches (lower : jsstring) (f : family) : bool :=
  existsb (includes lower) (keywords f).

Definition matched_families (lower : jsstring) : list family :=
  filter (family_matches lower) precedence.

(** The suggestions the generator can return. *)
Definition fixed_suggestion (s : Suggestion) : Prop :=
  In s (map suggestion_of precedence ++ default_suggestions).

(** The member [k] an array element carries, if any. *)
Definition field (element : Json) (k : string) : value :=
  match element with
  | JObj ms => own_property (js k) ms
  | _ => undefined
  end.

(** The element with the defaults filled in. *)
Definition fill_defaults (element : Json) : Suggestion :=
  mkSuggestion (or_default (field element "title") default_title)
               (or_default (field element "description") default_description).

Definition string_fields (s : Suggestion) : Prop :=
  is_string (title s) = true /\ is_string (description s) = true.

(** The response text [```json\n[{"title":"X"}]\n```]. *)
Definition fenced_example : jsstring :=
  js "```json" ++ [newline] ++
  js "[{" ++ [dquote] ++ js "title" ++ [dquote] ++ js ":" ++
  [dquote] ++ js "X" ++ [dquote] ++ js "}]" ++ [newline] ++ js "```".

(** The same text without its fence, [[{"title":"X"}]]. *)
Definition unfenced_example : jsstring :=
  js "[{" ++ [dquote] ++ js "title" ++ [dquote] ++ js ":" ++
  [dquote] ++ js "X" ++ [dquote] ++ js "}]".

(** The response text [[{"title":5}]]. *)
Definition numeric_title_example : jsstring :=
  js "[{" ++ [dquote] ++ js "title" ++ [dquote] ++ js ":5}]".

(** A request and two environments to run the route on. *)
Definition example_content : jsstring := js "hello world".

Definition example_body : Json := JObj [(js "content", JStr example_content)].

Definition numeric_body : Json :=
  JObj [(js "content", JNum (Num false 12345 0))].

Definition env_without_key : Env :=
  mkEnv None (Normal (fun _ => Rejected (mkError (js "401 Unauthorized"))))
        (js "2024-01-01T00:00:00.000Z").

Definition env_answering (text : jsstring) : Env :=
  mkEnv (Some (js "sk-test")) (Normal (fun _ => Completed (Some text)))
        (js "2024-01-01T00:00:00.000Z").

Definition both_patterns_error : Error :=
  mkError (js "rate limit reached for this API key").

(** A host that is only ever handed ASCII text and primitive lengths. *)
Definition ascii_host_lower : jsstring -> jsstring := map ascii_lower.
Definition ascii_host_below_ten : Json -> completion bool :=
  fun _ => Normal false.

Section Server.

(** [String.prototype.toLowerCase] on a string with a code unit outside
    ASCII follows the Unicode case tables of the host, which are a
    parameter here. *)
Variable unicode_toLowerCase : jsstring -> jsstring.

(** [v < 10] for a string, an array or an object [v] goes through the
    host's conversion to a primitive and then to a number, which is a
    parameter here (it may throw). *)
Variable coerced_below_ten : Json -> completion bool.

(** [s.toLowerCase()] *)
Definition toLowerCase (s : jsstring) : jsstring :=
  if forallb is_ascii s then map ascii_lower s else unicode_toLowerCase s.

(** [content.toLowerCase()]: only a string has the method. *)
Definition call_toLowerCase (content : Json) : completion jsstring :=
  match content with
  | JStr s => Normal (toLowerCase s)
  | JNull =>
      Throw (TypeError "Cannot read properties of null (reading 'toLowerCase')")
  | _ => Throw (TypeError "content.toLowerCase is not a function")
  end.

(** [v < 10] *)
Definition less_than_10 (v : value) : completion bool :=
  match v with
  | None => Normal false
  | Some JNull => Normal true
  | Some (JBool _) => Normal true
  | Some (JNum n) => Normal (below_ten n)
  | Some j => coerced_below_ten j
  end.

(** server.js, lines 187-235 *)
Definition generateFallbackSuggestions (content : Json)
  : completion (list Suggestion) :=
  match call_toLowerCase content with
  | Throw e => Throw e
  | Normal contentLower =>
      let suggestions := [] in
      let suggestions :=
        if includes contentLower (js "data")
           || includes contentLower (js "analytics")
           || includes contentLower (js "analysis")
        then suggestions ++ [data_suggestion] else suggestions in
      let suggestions :=
        if includes contentLower (js "marketing")
           || includes contentLower (js "brand")
           || includes contentLower (js "campaign")
        then suggestions ++ [marketing_suggestion] else suggestions in
      let suggestions :=
        if includes contentLower (js "leadership")
           || includes contentLower (js "management")
           || includes contentLower (js "team")
        then suggestions ++ [leadership_suggestion] else suggestions in
      let suggestions :=
        if includes contentLower (js "tech")
           || includes contentLower (js "software")
           || includes contentLower (js "developer")
        then suggestions ++ [tech_suggestion] else suggestions in
      let suggestions :=
        if (List.length suggestions =? 0)%nat
        then suggestions ++ default_suggestions else suggestions in
      Normal (firstn 2 suggestions)
  end.

(** The array the generator returns, as a value. *)
Definition fallback_array (content : Json) : M (list Json) :=
  fb <- lift (generateFallbackSuggestions content) ;;
  ret (map to_object fb).

(** The body of the [try] block from the request to the [return]
    (server.js, lines 126-176). *)
Definition ask_openai (create : jsstring -> reply) (content : Json)
  : M (list Suggestion) :=
  content_prefix <- lift (call_substring content 400) ;;
  tell (ExternalCall (user_message content_prefix)) ;;;
  match create (user_message content_prefix) with
  | Rejected e => throw e
  | Completed None =>
      throw (TypeError "Cannot read properties of null (reading 'trim')")
  | Completed (Some text) =>
      let responseContent := clean_up text in
      suggestions <-
        match JSON_parse responseContent with
        | Some v => ret v
        | None =>
            tell (ConsoleWarn (js "JSON parse failed, using fallback suggestions")) ;;;
            fb <- fallback_array content ;;
            ret (JArr fb)
        end ;;
      (* if (!Array.isArray(suggestions) || suggestions.length === 0) *)
      elements <-
        match suggestions with
        | JArr (x :: l) => ret (x :: l)
        | _ => fallback_array content
        end ;;
      lift (map_completion ensure_format (firstn 2 elements))
  end.

(** server.js, lines 112-184 *)
Definition analyzeWithOpenAI (env : Env) (content : Json)
  : M (list Suggestion) :=
  tell (ResolverCall content) ;;;
  if no_api_key env then
    tell (ConsoleWarn (js "OpenAI API key not configured, using fallback suggestions")) ;;;
    lift (generateFallbackSuggestions content)
  else
    try_catch
      (create <- lift (openai env) ;;
       ask_openai create content)
      (fun error =>
         tell (ConsoleError (js "OpenAI API error:") error) ;;;
         lift (generateFallbackSuggestions content)).

(** The [try] block of the route (server.js, lines 79-96). *)
Definition analyze_content_try (env : Env) (req_body : Json) : M Response :=
  content <- lift (destructure_content req_body) ;;
  match content with
  | None => ret bad_request
  | Some c =>
      (* if (!content || content.length < 10) *)
      too_short <-
        lift (if negb (truthy content) then Normal true
              else less_than_10 (get_length c)) ;;
      if too_short then ret bad_request
      else
        preview <- lift (call_substring c 100) ;;
        tell (ConsoleLog preview) ;;;
        suggestions <- analyzeWithOpenAI env c ;;
        ret (mkResponse 200
               (AnalysisBody suggestions (now env) (get_length c)))
  end.

(** [POST /api/analyze-content] (server.js, lines 77-109), from the parsed
    request body to the response. *)
Definition analyze_content (env : Env) (req_body : Json) : M Response :=
  try_catch
    (analyze_content_try env req_body)
    (fun error =>
       tell (ConsoleError (js "Analysis error:") error) ;;;
       ret (on_error error)).

(** In the earlier copy of the server [require('openai')] and
    [new OpenAI(...)] stand apart, with the key test between them
    (src/unnamed/part_000, lines 70-78).  [openai env] is the outcome of
    both steps; when it is a failure, [module_missing] tells which step
    threw: [require] (true) or the construction of the client (false). *)
Variable module_missing : bool.

(** [require('openai')] alone *)
Definition require_openai (env : Env) : completion unit :=
  match openai env with
  | Normal _ => Normal tt
  | Throw e => if module_missing then Throw e else Normal tt
  end.

(** The resolver of the earlier copy of the server (src/unnamed/part_000,
    lines 69-139): the module is loaded first, a missing key is thrown to
    the caller before the client is built, and only the request itself
    sits in the [try] block. *)
Definition legacy_analyzeWithOpenAI (env : Env) (content : Json)
  : M (list Suggestion) :=
  tell (ResolverCall content) ;;;
  lift (require_openai env) ;;;
  if no_api_key env then
    throw (mkError (js "OpenAI API key not configured"))
  else
    create <- lift (openai env) ;;
    try_catch
      (ask_openai create content)
      (fun error =>
         tell (ConsoleError (js "OpenAI API error:") error) ;;;
         lift (generateFallbackSuggestions content)).

(** The route of the earlier copy (src/unnamed/part_000, lines 35-66): the
    same validation and [catch] block around the earlier resolver; the
    answer has no [contentLength] member, which is [undefined] here. *)
Definition legacy_analyze_content_try (env : Env) (req_body : Json)
  : M Response :=
  content <- lift (destructure_content req_body) ;;
  match content with
  | None => ret bad_request
  | Some c =>
      too_short <-
        lift (if negb (truthy content) then Normal true
              else less_than_10 (get_length c)) ;;
      if too_short then ret bad_request
      else
        preview <- lift (call_substring c 100) ;;
        tell (ConsoleLog preview) ;;;
        suggestions <- legacy_analyzeWithOpenAI env c ;;
        ret (mkResponse 200 (AnalysisBody suggestions (now env) undefined))
  end.

Definition legacy_analyze_content (env : Env) (req_body : Json) : M Response :=
  try_catch
    (legacy_analyze_content_try env req_body)
    (fun error =>
       tell (ConsoleError (js "Analysis error:") error) ;;;
       ret (on_error error)).

End Server.


(** ** The other routes and the middleware of server.js *)

(** What the program reads of its process besides the API key. *)
Record Process := mkProcess {
  (** [process.env.NODE_ENV] *)
  NODE_ENV : option jsstring;
  (** [process.uptime()] *)
  uptime : number;
  (** [process.memoryUsage()] *)
  memoryUsage : Json
}.

(** [res.status(code).json(payload)]; the code is 200 where the source sets
    none. *)
Record JsonResponse := mkJsonResponse { code : nat; payload : Json }.

(** [v || d] for an environment variable [v] and a string literal [d]. *)
Definition variable_or (v : option jsstring) (d : jsstring) : jsstring :=
  match v with
  | Some (c :: s) => c :: s
  | Some [] | None => d
  end.

(** [v === lit] for an environment variable [v] and a string literal. *)
Definition variable_is (v : option jsstring) (lit : jsstring) : bool :=
  match v with
  | Some s => str_eqb s lit
  | None => false
  end.

(** The [origin] function given to the CORS middleware (server.js, lines
    14-28), as the list of the calls it makes to [callback], each with its
    error ([None] for [null]) and its verdict. *)
Definition cors_origin (origin : option jsstring) : list (option Error * bool) :=
  match origin with
  | None => [(None, true)]
  | Some o =>
      if negb (truthy (Some (JStr o))) then [(None, true)]
      else if starts_with (js "chrome-extension://") o
              || starts_with (js "moz-extension://") o
              || includes o (js "localhost")
              || includes o (js "127.0.0.1")
      then [(None, true)]
      else [(None, true)]
  end.

(** [GET /] (server.js, lines 49-63) *)
Definition root_route (env : Env) (proc : Process) : JsonResponse :=
  mkJsonResponse 200
    (JObj
       [ (js "name", JStr (js "LinkedIn Search Everywhere API"));
         (js "status", JStr (js "running"));
         (js "version", JStr (js "1.0.0"));
         (js "description",
          JStr (js "AI-powered content analysis for LinkedIn extensions"));
         (js "endpoints",
          JObj
            [ (js "GET /", JStr (js "API status and information"));
              (js "GET /health", JStr (js "Health check endpoint"));
              (js "POST /api/analyze-content",
               JStr (js "Analyze LinkedIn content and return suggestions")) ]);
         (js "timestamp", JStr (now env));
         (js "environment",
          JStr (variable_or (NODE_ENV proc) (js "development"))) ]).

(** [GET /health] (server.js, lines 66-74) *)
Definition health_route (env : Env) (proc : Process) : JsonResponse :=
  mkJsonResponse 200
    (JObj
       [ (js "status", JStr (js "healthy"));
         (js "timestamp", JStr (now env));
         (js "uptime", JNum (uptime proc));
         (js "memory", memoryUsage proc);
         (js "openaiConfigured", JBool (negb (no_api_key env))) ]).

(** The error-handling middleware (server.js, lines 251-257) *)
Definition error_middleware (proc : Process) (error : Error) : M JsonResponse :=
  tell (ConsoleError (js "Server error:") error) ;;;
  ret (mkJsonResponse 500
         (JObj
            [ (js "error", JStr (js "Internal server error"));
              (js "message",
               JStr (if variable_is (NODE_ENV proc) (js "development")
                     then message error
                     else js "Something went wrong")) ])).

(** Processes and environments to run the routes on. *)
Definition production_process : Process :=
  mkProcess (Some (js "production")) (Num false 12 0) (JObj []).

Definition unset_process : Process :=
  mkProcess None (Num false 12 0) (JObj []).

Definition env_rejecting : Env :=
  mkEnv (Some (js "sk-test"))
        (Normal (fun _ => Rejected (mkError (js "429 rate limit exceeded"))))
        (js "2024-01-01T00:00:00.000Z").

Definition env_failing_load : Env :=
  mkEnv (Some (js "sk-test"))
        (Throw (mkError (js "Cannot find module 'openai'")))
        (js "2024-01-01T00:00:00.000Z").

Definition env_keyless_client_fails : Env :=
  mkEnv None
        (Throw (mkError
                  (js "The OPENAI_API_KEY environment variable is missing or empty")))
        (js "2024-01-01T00:00:00.000Z").

Definition env_empty_key : Env :=
  mkEnv (Some []) (Normal (fun _ => Completed (Some (js "[]"))))
        (js "2024-01-01T00:00:00.000Z").

(** The mark of a code fence. *)
Definition fence : jsstring := js "```".

(** ** Facts about the host functions *)

Lemma starts_with_spec (p s : jsstring) :
  starts_with p s = true <-> exists post, s = p ++ post.
Proof.
  revert s; induction p as [|a p IH]; intros s; simpl.
  - split; [intros _; now exists s | reflexivity].
  - destruct s as [|b s]; simpl.
    + split; [discriminate | intros [post H]; discriminate].
    + rewrite andb_true_iff, N.eqb_eq, IH. split.
      * intros [-> [post ->]]. now exists post.
      * intros [post H]. injection H as -> ->. split; [reflexivity | now exists post].
Qed.

Lemma includes_spec (s kw : jsstring) :
  includes s kw = true <-> Contains s kw.
Proof.
  unfold Contains. induction s as [|c s IH].
  - simpl. rewrite orb_false_r, starts_with_spec. split.
    + intros [post H]. now exists [], post.
    + intros [pre [post H]]. destruct pre; simpl in H.
      * now exists post.
      * discriminate.
  - cbn [includes]. rewrite orb_true_iff, starts_with_spec, IH. split.
    + intros [[post H] | [pre [post H]]].
      * now exists [], post.
      * exists (c :: pre), post. simpl. now rewrite H.
    + intros [pre [post H]]. destruct pre as [|x pre]; simpl in H.
      * left. now exists post.
      * right. injection H as _ H. now exists pre, post.
Qed.

Lemma includes_false (s kw : jsstring) :
  ~ Contains s kw -> includes s kw = false.
Proof.
  intros H. destruct (includes s kw) eqn:E; [|reflexivity].
  apply includes_spec in E. contradiction.
Qed.

(** *** [JSON.parse] reads its input and has fuel to spare *)
Lemma skip_ws_length (s : jsstring) :
  (List.length (skip_ws s) <= List.length s)%nat.
Proof.
  induction s as [|c s IH]; simpl; [lia|].
  destruct (is_json_ws c); simpl; lia.
Qed.

Lemma span_digits_length (s : jsstring) :
  (List.length (snd (span_digits s)) <= List.length s)%nat.
Proof.
  induction s as [|c s IH]; simpl; [lia|].
  destruct (is_digit c); [|simpl; lia].
  destruct (span_digits s) as [ds r]. simpl in *. lia.
Qed.

Lemma parse_chars_length (n : nat) :
  forall s acc k r,
    (List.length s <= n)%nat ->
    parse_chars s acc = Some (k, r) ->
    (List.length r < List.length s)%nat.
Proof.
  induction n as [|n IH]; intros s acc k r L H.
  - destruct s; [discriminate | simpl in L; lia].
  - destruct s as [|c s]; [discriminate|]. cbn [parse_chars] in H.
    simpl in L. cbn [List.length].
    destruct (c =? 34)%N; [injection H as _ <-; lia|].
    destruct (c =? 92)%N.
    + destruct s as [|e s1]; [discriminate|]. simpl in L. cbn [List.length].
      repeat match type of H with
             | (if ?b then parse_chars s1 _ else _) = _ =>
                 destruct b; [apply IH in H; lia|]
             end.
      destruct (e =? 117)%N; [|discriminate].
      destruct s1 as [|h1 [|h2 [|h3 [|h4 s2]]]]; try discriminate.
      destruct (hex_digit h1), (hex_digit h2), (hex_digit h3), (hex_digit h4);
        try discriminate.
      apply IH in H; simpl in *; lia.
    + destruct (c <? 32)%N; [discriminate|]. apply IH in H; lia.
Qed.

Lemma parse_sign_length (s : jsstring) :
  (List.length (snd (parse_sign s)) <= List.length s)%nat.
Proof.
  destruct s as [|c s]; simpl; [lia|]. destruct (c =? 45)%N; simpl; lia.
Qed.

Lemma parse_int_length (s ds r : jsstring) :
  parse_int s = Some (ds, r) -> (List.length r < List.length s)%nat.
Proof.
  destruct s as [|c s]; [discriminate|]. unfold parse_int.
  destruct (c =? 48)%N; [intros H; injection H as _ <-; simpl; lia|].
  destruct (is_digit c) eqn:D; [|discriminate].
  cbn [span_digits]. rewrite D.
  pose proof (span_digits_length s) as P.
  destruct (span_digits s) as [ds' q].
  intros H. injection H as _ <-. simpl in *. lia.
Qed.

Lemma parse_digits_length (s ds r : jsstring) :
  parse_digits s = Some (ds, r) -> (List.length r <= List.length s)%nat.
Proof.
  unfold parse_digits. pose proof (span_digits_length s) as P.
  destruct (span_digits s) as [[|d ds'] q]; [discriminate|].
  intros H. injection H as _ <-. exact P.
Qed.

Lemma parse_frac_length (s ds r : jsstring) :
  parse_frac s = Some (ds, r) -> (List.length r <= List.length s)%nat.
Proof.
  destruct s as [|c s]; unfold parse_frac.
  - intros H. injection H as _ <-. lia.
  - destruct (c =? 46)%N.
    + intros H. apply parse_digits_length in H. simpl. lia.
    + intros H. injection H as _ <-. lia.
Qed.

Lemma parse_exp_sign_length (s : jsstring) :
  (List.length (snd (parse_exp_sign s)) <= List.length s)%nat.
Proof.
  destruct s as [|c s]; simpl; [lia|].
  destruct (c =? 45)%N; [simpl; lia|]. destruct (c =? 43)%N; simpl; lia.
Qed.

Lemma parse_exp_length (s r : jsstring) (e : Z) :
  parse_exp s = Some (e, r) -> (List.length r <= List.length s)%nat.
Proof.
  destruct s as [|c s]; unfold parse_exp.
  - intros H. injection H as _ <-. lia.
  - destruct ((c =? 101) || (c =? 69))%N.
    + pose proof (parse_exp_sign_length s) as P.
      destruct (parse_exp_sign s) as [eneg r1].
      destruct (parse_digits r1) as [[eds r2]|] eqn:D; [|discriminate].
      apply parse_digits_length in D.
      intros H. injection H as _ <-. simpl in *. lia.
    + intros H. injection H as _ <-. lia.
Qed.

Lemma parse_number_length (s : jsstring) (n : number) (r : jsstring) :
  parse_number s = Some (n, r) -> (List.length r < List.length s)%nat.
Proof.
  unfold parse_number. pose proof (parse_sign_length s) as L1.
  destruct (parse_sign s) as [sign s1].
  destruct (parse_int s1) as [[ids s2]|] eqn:S2; [|discriminate].
  apply parse_int_length in S2.
  destruct (parse_frac s2) as [[fds s3]|] eqn:S3; [|discriminate].
  apply parse_frac_length in S3.
  destruct (parse_exp s3) as [[e s4]|] eqn:S4; [|discriminate].
  apply parse_exp_length in S4.
  intros H. injection H as _ <-. simpl in *. lia.
Qed.

Lemma expect_length (lit s r : jsstring) :
  expect lit s = Some r ->
  (List.length r = List.length s - List.length lit)%nat.
Proof.
  unfold expect. destruct (starts_with lit s); [|discriminate].
  intros H. injection H as <-. apply length_skipn.
Qed.

Lemma parse_consumes (f : nat) :
  (forall s v r, parse_value f s = Some (v, r) ->
                 (List.length r < List.length s)%nat) /\
  (forall s acc v r, parse_elements f s acc = Some (v, r) ->
                     (List.length r < List.length s)%nat) /\
  (forall s acc v r, parse_members f s acc = Some (v, r) ->
                     (List.length r < List.length s)%nat).
Proof.
  induction f as [|f [IHv [IHe IHm]]]; [repeat split; discriminate|].
  split; [|split].
  - intros s v r H. cbn [parse_value] in H.
    pose proof (skip_ws_length s) as W.
    destruct (skip_ws s) as [|c q]; [discriminate|]. cbn [List.length] in W.
    repeat match type of H with
           | (if ?b then option_map _ (expect ?l ?x) else _) = _ =>
               destruct b;
               [destruct (expect l x) as [r'|] eqn:E; [|discriminate];
                apply expect_length in E; injection H as _ <-;
                simpl in E; lia|]
           end.
    destruct (c =? 34)%N.
    { destruct (parse_chars q []) as [[k r']|] eqn:E; [|discriminate].
      apply (parse_chars_length (List.length q)) in E; [|lia].
      injection H as _ <-. simpl. lia. }
    destruct (c =? 91)%N.
    { pose proof (skip_ws_length q) as W'.
      destruct (skip_ws q) as [|c' q']; [discriminate|]. cbn [List.length] in W'.
      destruct (c' =? 93)%N; [injection H as _ <-; lia|].
      apply IHe in H. lia. }
    destruct (c =? 123)%N.
    { pose proof (skip_ws_length q) as W'.
      destruct (skip_ws q) as [|c' q']; [discriminate|]. cbn [List.length] in W'.
      destruct (c' =? 125)%N; [injection H as _ <-; lia|].
      apply IHm in H. lia. }
    destruct (parse_number (c :: q)) as [[n r']|] eqn:E; [|discriminate].
    apply parse_number_length in E. injection H as _ <-.
    cbn [List.length snd] in *. lia.
  - intros s acc v r H. cbn [parse_elements] in H.
    destruct (parse_value f s) as [[x q]|] eqn:E; [|discriminate].
    apply IHv in E. pose proof (skip_ws_length q) as W.
    destruct (skip_ws q) as [|c q']; [discriminate|]. cbn [List.length] in W.
    destruct (c =? 44)%N; [apply IHe in H; lia|].
    destruct (c =? 93)%N; [|discriminate]. injection H as _ <-. lia.
  - intros s acc v r H. cbn [parse_members] in H.
    pose proof (skip_ws_length s) as W.
    destruct (skip_ws s) as [|c q]; [discriminate|]. cbn [List.length] in W.
    destruct (c =? 34)%N; [|discriminate].
    destruct (parse_chars q []) as [[k r1]|] eqn:E; [|discriminate].
    apply (parse_chars_length (List.length q)) in E; [|lia].
    pose proof (skip_ws_length r1) as W1.
    destruct (skip_ws r1) as [|c1 r2]; [discriminate|]. cbn [List.length] in W1.
    destruct (c1 =? 58)%N; [|discriminate].
    destruct (parse_value f r2) as [[x r3]|] eqn:V; [|discriminate].
    apply IHv in V. pose proof (skip_ws_length r3) as W3.
    destruct (skip_ws r3) as [|c3 r4]; [discriminate|]. cbn [List.length] in W3.
    destruct (c3 =? 44)%N; [apply IHm in H; lia|].
    destruct (c3 =? 125)%N; [|discriminate]. injection H as _ <-. lia.
Qed.

(** More fuel than [2 * length + 2] changes nothing. *)
Lemma parse_fuel_enough (f : nat) :
  forall g,
  (forall s, (2 * List.length s + 1 <= f)%nat ->
             (2 * List.length s + 1 <= g)%nat ->
             parse_value f s = parse_value g s) /\
  (forall s acc, (2 * List.length s + 2 <= f)%nat ->
                 (2 * List.length s + 2 <= g)%nat ->
                 parse_elements f s acc = parse_elements g s acc) /\
  (forall s acc, (2 * List.length s + 2 <= f)%nat ->
                 (2 * List.length s + 2 <= g)%nat ->
                 parse_members f s acc = parse_members g s acc).
Proof.
  induction f as [|f IH]; intros g.
  { repeat split; intros; lia. }
  destruct g as [|g]; [repeat split; intros; lia|].
  destruct (IH g) as [IHv [IHe IHm]]. clear IH.
  split; [|split].
  - intros s Lf Lg. cbn [parse_value].
    pose proof (skip_ws_length s) as W.
    destruct (skip_ws s) as [|c q]; [reflexivity|]. cbn [List.length] in W.
    repeat match goal with
           | |- (if ?b then option_map _ _ else _) = _ =>
               destruct b; [reflexivity|]
           end.
    destruct (c =? 91)%N.
    { pose proof (skip_ws_length q) as W'.
      destruct (skip_ws q) as [|c' q']; [reflexivity|].
      destruct (c' =? 93)%N; [reflexivity|]. apply IHe; lia. }
    destruct (c =? 123)%N; [|reflexivity].
    pose proof (skip_ws_length q) as W'.
    destruct (skip_ws q) as [|c' q']; [reflexivity|].
    destruct (c' =? 125)%N; [reflexivity|]. apply IHm; lia.
  - intros s acc Lf Lg. cbn [parse_elements].
    rewrite (IHv s) by lia.
    destruct (parse_value g s) as [[x q]|] eqn:E; [|reflexivity].
    apply (proj1 (parse_consumes g)) in E.
    pose proof (skip_ws_length q) as W.
    destruct (skip_ws q) as [|c q']; [reflexivity|]. cbn [List.length] in W.
    destruct (c =? 44)%N; [|reflexivity]. apply IHe; lia.
  - intros s acc Lf Lg. cbn [parse_members].
    pose proof (skip_ws_length s) as W.
    destruct (skip_ws s) as [|c q]; [reflexivity|]. cbn [List.length] in W.
    destruct (c =? 34)%N; [|reflexivity].
    destruct (parse_chars q []) as [[k r1]|] eqn:E; [|reflexivity].
    apply (parse_chars_length (List.length q)) in E; [|lia].
    pose proof (skip_ws_length r1) as W1.
    destruct (skip_ws r1) as [|c1 r2]; [reflexivity|]. cbn [List.length] in W1.
    destruct (c1 =? 58)%N; [|reflexivity].
    rewrite (IHv r2) by lia.
    destruct (parse_value g r2) as [[x r3]|] eqn:V; [|reflexivity].
    apply (proj1 (parse_consumes g)) in V.
    pose proof (skip_ws_length r3) as W3.
    destruct (skip_ws r3) as [|c3 r4]; [reflexivity|]. cbn [List.length] in W3.
    destruct (c3 =? 44)%N; [|reflexivity]. apply IHm; lia.
Qed.

(** [JSON_parse] does not run out of fuel: any larger amount gives the same
    parse. *)
Theorem JSON_parse_fuel (text : jsstring) (fuel : nat) :
  (2 * List.length text + 2 <= fuel)%nat ->
  parse_value fuel text = parse_value (2 * List.length text + 2) text.
Proof.
  intros L. apply (proj1 (parse_fuel_enough fuel _)); lia.
Qed.

Lemma In_firstn {A} (n : nat) (l : list A) (x : A) :
  In x (firstn n l) -> In x l.
Proof.
  revert l; induction n as [|n IH]; intros [|y l]; simpl; try tauto.
  intros [H | H]; [now left | right; now apply IH].
Qed.

(** ** The keyword generator *)

Section Properties.

Variable unicode_toLowerCase : jsstring -> jsstring.
Variable coerced_below_ten : Json -> completion bool.

Local Notation lower := (toLowerCase unicode_toLowerCase).
Local Notation fallback := (generateFallbackSuggestions unicode_toLowerCase).
Local Notation resolver := (analyzeWithOpenAI unicode_toLowerCase).
Local Notation route := (analyze_content unicode_toLowerCase coerced_below_ten).

(** On ASCII text the case tables of the host play no part. *)
Lemma toLowerCase_ascii (s : jsstring) :
  forallb is_ascii s = true -> lower s = map ascii_lower s.
Proof. intros H. unfold toLowerCase. now rewrite H. Qed.

Lemma family_matches_or (l : jsstring) (f : family) :
  family_matches l f =
  match f with
  | Data =>
      includes l (js "data") || includes l (js "analytics")
      || includes l (js "analysis")
  | Marketing =>
      includes l (js "marketing") || includes l (js "brand")
      || includes l (js "campaign")
  | Leadership =>
      includes l (js "leadership") || includes l (js "management")
      || includes l (js "team")
  | Tech =>
      includes l (js "tech") || includes l (js "software")
      || includes l (js "developer")
  end.
Proof.
  destruct f; unfold family_matches, keywords, existsb;
    now rewrite orb_false_r, orb_assoc.
Qed.

(** The four tests and pushes of the generator collect the suggestions of
    the matched families, in the order of precedence. *)
Lemma fallback_by_families (s : jsstring) :
  fallback (JStr s) =
  Normal (firstn 2 (match matched_families (lower s) with
                    | [] => default_suggestions
                    | ms => map suggestion_of ms
                    end)).
Proof.
  unfold generateFallbackSuggestions, call_toLowerCase, matched_families,
    precedence.
  cbn [filter]. rewrite !family_matches_or.
  destruct (includes _ (js "data") || _ || _);
  destruct (includes _ (js "marketing") || _ || _);
  destruct (includes _ (js "leadership") || _ || _);
  destruct (includes _ (js "tech") || _ || _); reflexivity.
Qed.

Lemma matched_families_sublist (l : jsstring) :
  forall f, In f (matched_families l) -> In f precedence.
Proof. intros f H. apply filter_In in H. tauto. Qed.

Lemma fixed_suggestion_of (f : family) : fixed_suggestion (suggestion_of f).
Proof.
  apply in_or_app; left. apply in_map. destruct f; cbn [precedence In]; tauto.
Qed.

Lemma fixed_defaults : Forall fixed_suggestion default_suggestions.
Proof.
  apply Forall_forall. intros s H. apply in_or_app. now right.
Qed.

Lemma fallback_string (s : jsstring) :
  exists l, fallback (JStr s) = Normal l /\ l <> [] /\
            (List.length l <= 2)%nat /\ Forall fixed_suggestion l.
Proof.
  rewrite fallback_by_families. eexists. split; [reflexivity|].
  split; [|split].
  - destruct (matched_families (lower s)) as [|f [|g ms]]; discriminate.
  - rewrite length_firstn. lia.
  - apply Forall_forall. intros x Hx. apply In_firstn in Hx.
    destruct (matched_families (lower s)) as [|f ms].
    + eapply Forall_forall in Hx; [exact Hx | apply fixed_defaults].
    + apply in_map_iff in Hx. destruct Hx as [g [<- _]].
      apply fixed_suggestion_of.
Qed.

Lemma family_matches_spec (l : jsstring) (f : family) :
  family_matches l f = true <->
  exists kw, In kw (keywords f) /\ Contains l kw.
Proof.
  unfold family_matches. rewrite existsb_exists.
  split; intros [kw [Hin H]]; exists kw; split; auto; now apply includes_spec.
Qed.

Lemma no_keyword_no_family (l : jsstring) :
  (forall kw, In kw twelve_keywords -> ~ Contains l kw) ->
  matched_families l = [].
Proof.
  intros H. unfold matched_families.
  assert (F : forall f, In f precedence -> family_matches l f = false).
  { intros f Hf. destruct (family_matches l f) eqn:E; [|reflexivity].
    apply family_matches_spec in E. destruct E as [kw [Hin Hc]].
    exfalso. apply (H kw); [|exact Hc].
    apply in_flat_map. now exists f. }
  induction precedence as [|f fs IH]; [reflexivity|].
  cbn [filter]. rewrite (F f) by now left.
  apply IH. intros g Hg. apply F. now right.
Qed.

(** C4: content whose lower-cased form contains none of the twelve
    keywords gets exactly the two default suggestions, "Professional
    Development" and then "Network Growth". *)
Theorem fallback_defaults_without_keyword (content : jsstring) :
  (forall kw, In kw twelve_keywords -> ~ Contains (lower content) kw) ->
  exists first second,
    fallback (JStr content) = Normal [first; second] /\
    title first = JStr (js "Professional Development") /\
    title second = JStr (js "Network Growth") /\
    [first; second] = default_suggestions.
Proof.
  intros H. rewrite fallback_by_families, (no_keyword_no_family _ H).
  do 2 eexists. repeat split.
Qed.

(** C5: the generator collects one fixed suggestion per matched family in
    the order data, marketing, leadership, tech and keeps at most the first
    two; with three or more matched families it returns exactly the
    suggestions of the first two of them. *)
Theorem fallback_precedence (content : jsstring) :
  let ms := matched_families (lower content) in
  (forall f, In f ms <->
             exists kw, In kw (keywords f) /\ Contains (lower content) kw) /\
  StronglySorted (fun f g => rank f < rank g)%nat ms /\
  exists l,
    fallback (JStr content) = Normal l /\
    (List.length l <= 2)%nat /\
    (ms <> [] -> l = firstn 2 (map suggestion_of ms)) /\
    (3 <= List.length ms ->
     exists f g rest, ms = f :: g :: rest /\
                      l = [suggestion_of f; suggestion_of g])%nat.
Proof.
  intros ms. split; [|split].
  - intros f. unfold ms, matched_families. rewrite filter_In, family_matches_spec.
    split; [tauto | intros H; split; [destruct f; simpl; tauto | exact H]].
  - unfold ms, matched_families, precedence. cbn [filter].
    destruct (family_matches _ Data), (family_matches _ Marketing),
      (family_matches _ Leadership), (family_matches _ Tech);
      repeat constructor.
  - rewrite fallback_by_families. fold ms. eexists. split; [reflexivity|].
    split; [rewrite length_firstn; lia|]. split.
    + destruct ms; [congruence | reflexivity].
    + destruct ms as [|f [|g rest]]; simpl; try lia.
      intros _. now exists f, g, rest.
Qed.

(** ** The resolver *)

Lemma ensure_format_fixed (s : Suggestion) :
  fixed_suggestion s -> ensure_format (to_object s) = Normal s.
Proof.
  unfold fixed_suggestion, precedence, default_suggestions.
  cbn [map app In suggestion_of].
  intros H. repeat (destruct H as [<- | H]; [reflexivity|]). contradiction.
Qed.

(** Formatting the generator's own array gives it back unchanged. *)
Lemma format_fixed (l : list Suggestion) :
  Forall fixed_suggestion l -> (List.length l <= 2)%nat ->
  map_completion ensure_format (firstn 2 (map to_object l)) = Normal l.
Proof.
  intros F L. rewrite firstn_all2 by now rewrite length_map.
  clear L. induction F as [|s l Hs _ IH]; [reflexivity|].
  cbn [map map_completion]. now rewrite (ensure_format_fixed _ Hs), IH.
Qed.

Lemma resolver_without_key (env : Env) (content : Json) :
  no_api_key env = true ->
  resolver env content =
  (fallback content,
   [ResolverCall content;
    ConsoleWarn (js "OpenAI API key not configured, using fallback suggestions")]).
Proof.
  intros H. unfold analyzeWithOpenAI. now rewrite H.
Qed.

(** What the request and the formatting of its answer come to, for a
    string content and a response that carries text. *)
Lemma ask_openai_text (create : jsstring -> reply) (c text : jsstring) :
  create (user_message (substring0 400 c)) = Completed (Some text) ->
  result (ask_openai unicode_toLowerCase create (JStr c)) =
  match JSON_parse (clean_up text) with
  | Some (JArr (x :: l)) => map_completion ensure_format (firstn 2 (x :: l))
  | _ => fallback (JStr c)
  end.
Proof.
  intros H. destruct (fallback_string c) as [fb [E [N [L F]]]].
  pose proof (format_fixed _ F L) as R.
  unfold ask_openai, call_substring, fallback_array.
  unfold bind, lift, tell, ret, result. rewrite H, E.
  destruct (JSON_parse (clean_up text)) as [[| | | |[|x a]|]|].
  8: destruct fb as [|s fb]; [congruence|]; cbn [map].
  all: cbn [fst]; try (now rewrite R); try exact R.
  destruct (map_completion _ _); reflexivity.
Qed.

Lemma resolver_with_text (env : Env) (create : jsstring -> reply)
      (c text : jsstring) :
  no_api_key env = false ->
  openai env = Normal create ->
  create (user_message (substring0 400 c)) = Completed (Some text) ->
  result (resolver env (JStr c)) =
  match JSON_parse (clean_up text) with
  | Some (JArr (x :: l)) =>
      match map_completion ensure_format (firstn 2 (x :: l)) with
      | Normal r => Normal r
      | Throw _ => fallback (JStr c)
      end
  | _ => fallback (JStr c)
  end.
Proof.
  intros K O H. pose proof (ask_openai_text create c text H) as A.
  destruct (fallback_string c) as [fb [E _]].
  unfold analyzeWithOpenAI. rewrite K, O.
  unfold result, bind, lift, tell, try_catch in *.
  destruct (ask_openai _ create (JStr c)) as [[r | e] t];
    cbn [fst] in A; subst.
  - destruct (JSON_parse (clean_up text)) as [[| | | |[|x a]|]|];
      cbn [fst]; try congruence.
    now rewrite <- A.
  - rewrite E. cbn [fst].
    destruct (JSON_parse (clean_up text)) as [[| | | |[|x a]|]|];
      try congruence.
    now rewrite <- A.
Qed.

(** ** The route *)

Lemma below_ten_of_nat (n : nat) : below_ten (of_nat n) = (n <? 10)%nat.
Proof.
  unfold below_ten, of_nat. cbn [neg exponent mantissa].
  change (0 <=? 0)%Z with true. cbv iota.
  change (10 ^ 0)%Z with 1%Z.
  change (10 * 2 ^ 50 - 1)%Z with 11258999068426239%Z.
  change (2 ^ 50)%Z with 1125899906842624%Z.
  destruct (Nat.ltb_spec n 10); [apply Z.ltb_lt | apply Z.ltb_ge]; lia.
Qed.

Lemma route_absent (env : Env) (req_body : Json) :
  destructure_content req_body = Normal undefined ->
  route env req_body = (Normal bad_request, []).
Proof.
  intros H. unfold analyze_content, analyze_content_try. now rewrite H.
Qed.

Lemma route_short_string (env : Env) (req_body : Json) (s : jsstring) :
  destructure_content req_body = Normal (Some (JStr s)) ->
  (List.length s < 10)%nat ->
  route env req_body = (Normal bad_request, []).
Proof.
  intros H L. unfold analyze_content, analyze_content_try. rewrite H.
  destruct s as [|x s]; [reflexivity|].
  unfold bind, lift, less_than_10, get_length. cbn [truthy negb].
  rewrite below_ten_of_nat.
  apply Nat.ltb_lt in L. now rewrite L.
Qed.

(** A string of ten code units or more passes the validation; the preview
    is logged and the resolver is called. *)
Lemma route_long_string (env : Env) (req_body : Json) (s : jsstring) :
  destructure_content req_body = Normal (Some (JStr s)) ->
  (10 <= List.length s)%nat ->
  route env req_body =
  try_catch
    (tell (ConsoleLog (substring0 100 s)) ;;;
     suggestions <- resolver env (JStr s) ;;
     ret (mkResponse 200
            (AnalysisBody suggestions (now env)
               (Some (JNum (of_nat (List.length s)))))))
    (fun error =>
       tell (ConsoleError (js "Analysis error:") error) ;;;
       ret (on_error error)).
Proof.
  intros H L. unfold analyze_content, analyze_content_try. rewrite H.
  destruct s as [|x s]; [simpl in L; lia|].
  unfold bind at 1. unfold lift at 1.
  unfold less_than_10, get_length. cbn [truthy negb].
  rewrite below_ten_of_nat.
  apply Nat.ltb_ge in L. rewrite L.
  unfold call_substring, bind, lift, tell, ret, try_catch.
  destruct (analyzeWithOpenAI _ _ _) as [[r | e] t]; reflexivity.
Qed.

(** The route never calls the resolver with anything but a string: a
    content that is not a string is rejected, or faults in the comparison,
    or faults at [content.substring(0, 100)] (server.js, line 87). *)
Lemma route_non_string (env : Env) (req_body : Json) (c : Json) :
  destructure_content req_body = Normal (Some c) ->
  is_string c = false ->
  existsb is_resolver_call (trace (route env req_body)) = false.
Proof.
  intros H S. unfold analyze_content, analyze_content_try. rewrite H.
  unfold bind, lift, tell, ret, try_catch, trace.
  destruct (negb (truthy (Some c))); [reflexivity|].
  destruct (less_than_10 coerced_below_ten (get_length c)) as [[|] | e];
    try reflexivity.
  destruct c; try discriminate; reflexivity.
Qed.

(** ** The claims of the specification *)

(** C1: for content of ten code units or more and no credential for the
    external API, the resolver returns the generator's result without
    throwing and without calling the API, and the route answers 200 with
    that result: the missing credential is not surfaced as a failure. *)
Theorem missing_key_falls_back (env : Env) (req_body : Json)
        (content : jsstring) :
  (10 <= List.length content)%nat ->
  no_api_key env = true ->
  destructure_content req_body = Normal (Some (JStr content)) ->
  exists l,
    fallback (JStr content) = Normal l /\
    result (resolver env (JStr content)) = Normal l /\
    existsb is_external_call (trace (resolver env (JStr content))) = false /\
    result (route env req_body) =
    Normal (mkResponse 200
              (AnalysisBody l (now env)
                 (Some (JNum (of_nat (List.length content)))))).
Proof.
  intros L K B. destruct (fallback_string content) as [l [E _]].
  exists l. split; [exact E|].
  rewrite (route_long_string env req_body content B L).
  rewrite (resolver_without_key env (JStr content) K), E.
  repeat split.
Qed.

(** C3: a request whose body has no [content], or has a string of fewer
    than ten code units as [content], is answered 400 with the validation
    error, and the resolver is not called. *)
Theorem short_content_rejected (env : Env) (req_body : Json) :
  destructure_content req_body = Normal undefined \/
  (exists s, destructure_content req_body = Normal (Some (JStr s)) /\
             (List.length s < 10)%nat) ->
  result (route env req_body) =
  Normal (mkResponse 400
            (ErrorBody
               (js "Content is required and must be at least 10 characters long"))) /\
  existsb is_resolver_call (trace (route env req_body)) = false.
Proof.
  intros [H | [s [H L]]].
  - now rewrite (route_absent env req_body H).
  - now rewrite (route_short_string env req_body s H L).
Qed.

Lemma clean_up_fenced_example : clean_up fenced_example = unfenced_example.
Proof. vm_compute. reflexivity. Qed.

Lemma parse_unfenced_example :
  JSON_parse unfenced_example = Some (JArr [JObj [(js "title", JStr (js "X"))]]).
Proof. vm_compute. reflexivity. Qed.

(** C6: when the external call returns the fenced text
    [```json\n[{"title":"X"}]\n```], the clean-up strips the fence, the
    text parses to one object, and the resolver returns exactly one
    suggestion, titled "X", with the default description "Explore related
    opportunities on LinkedIn". *)
Theorem fenced_example_normalised (env : Env) (create : jsstring -> reply)
        (content : jsstring) :
  no_api_key env = false ->
  openai env = Normal create ->
  create (user_message (substring0 400 content)) =
    Completed (Some fenced_example) ->
  clean_up fenced_example = unfenced_example /\
  JSON_parse (clean_up fenced_example) =
    Some (JArr [JObj [(js "title", JStr (js "X"))]]) /\
  result (resolver env (JStr content)) =
    Normal [mkSuggestion (JStr (js "X"))
              (JStr (js "Explore related opportunities on LinkedIn"))].
Proof.
  intros K O H. split; [apply clean_up_fenced_example|].
  rewrite (resolver_with_text env create content _ K O H).
  rewrite clean_up_fenced_example, parse_unfenced_example.
  split; reflexivity.
Qed.

(** C2, as the code has it: when the external call succeeds and the
    cleaned text parses as an empty array, the resolver calls the generator
    and returns its result, which is not empty. *)
Theorem empty_array_falls_back (env : Env) (create : jsstring -> reply)
        (content text : jsstring) :
  no_api_key env = false ->
  openai env = Normal create ->
  create (user_message (substring0 400 content)) = Completed (Some text) ->
  JSON_parse (clean_up text) = Some (JArr []) ->
  exists l,
    fallback (JStr content) = Normal l /\ l <> [] /\
    result (resolver env (JStr content)) = Normal l.
Proof.
  intros K O H P. destruct (fallback_string content) as [l [E [N _]]].
  exists l. rewrite (resolver_with_text env create content text K O H), P. auto.
Qed.

(** C7: when the external call succeeds but the text it returns is not
    valid JSON, that is, the parse of the cleaned text (server.js, line
    159) fails, the resolver returns what it returns when no credential is
    configured; both are the generator's result, which depends on the
    content alone. *)
Theorem parse_failure_same_as_missing_key
        (env env' : Env) (create : jsstring -> reply)
        (content text : jsstring) :
  no_api_key env = false ->
  openai env = Normal create ->
  create (user_message (substring0 400 content)) = Completed (Some text) ->
  JSON_parse (clean_up text) = None ->
  no_api_key env' = true ->
  exists l,
    fallback (JStr content) = Normal l /\
    result (resolver env (JStr content)) = Normal l /\
    result (resolver env' (JStr content)) = Normal l.
Proof.
  intros K O H P K'. destruct (fallback_string content) as [l [E _]].
  exists l. rewrite (resolver_with_text env create content text K O H), P.
  rewrite (resolver_without_key env' (JStr content) K'). auto.
Qed.

Lemma ensure_format_not_null (element : Json) :
  element <> JNull -> ensure_format element = Normal (fill_defaults element).
Proof. destruct element; intros H; [congruence | reflexivity ..]. Qed.

Lemma ensure_format_all (elements : list Json) :
  Forall (fun e => e <> JNull) elements ->
  map_completion ensure_format elements = Normal (map fill_defaults elements).
Proof.
  induction 1 as [|e es He _ IH]; [reflexivity|].
  cbn [map_completion map]. now rewrite (ensure_format_not_null e He), IH.
Qed.

Lemma or_default_string (v : value) (d : jsstring) :
  (forall j, v = Some j -> is_string j = true) ->
  is_string (or_default v d) = true.
Proof.
  intros H. destruct v as [j|]; [|reflexivity].
  unfold or_default. destruct (truthy (Some j)); [now apply H | reflexivity].
Qed.

Lemma fixed_string_fields (s : Suggestion) :
  fixed_suggestion s -> string_fields s.
Proof.
  unfold fixed_suggestion, precedence, default_suggestions.
  cbn [map app In suggestion_of].
  intros H. repeat (destruct H as [<- | H]; [now split|]). contradiction.
Qed.

Lemma ensure_format_null (elements : list Json) :
  In JNull elements ->
  exists e, map_completion ensure_format elements = Throw e.
Proof.
  induction elements as [|x xs IH]; [contradiction|].
  intros [-> | H]; cbn [map_completion].
  - eexists. reflexivity.
  - destruct (ensure_format x); [|eexists; reflexivity].
    destruct (IH H) as [e ->]. now exists e.
Qed.

Lemma fill_defaults_strings (element : Json) :
  (forall v, field element "title" = Some v \/
             field element "description" = Some v ->
             is_string v = true) ->
  string_fields (fill_defaults element).
Proof.
  intros H. split; apply or_default_string; intros j Hj; apply H; auto.
Qed.

(** C8, as the code has it: for a non-empty array returned by the
    external call, every element of the normalized list is a record of the
    two fields [title] and [description]; each holds the array element's
    own value when that is truthy and the fixed default text otherwise, so
    a missing field is replaced by the default; and both fields are strings
    when the values the first two elements carry for them are strings.  (A
    [null] among the first two elements makes the formatting throw, and the
    resolver returns the generator's result.) *)
Theorem normalised_fields (env : Env) (create : jsstring -> reply)
        (content text : jsstring) (a : list Json) :
  no_api_key env = false ->
  openai env = Normal create ->
  create (user_message (substring0 400 content)) = Completed (Some text) ->
  JSON_parse (clean_up text) = Some (JArr a) ->
  a <> [] ->
  (Forall (fun e => e <> JNull) (firstn 2 a) ->
   result (resolver env (JStr content)) =
   Normal (map fill_defaults (firstn 2 a))) /\
  (In JNull (firstn 2 a) ->
   result (resolver env (JStr content)) = fallback (JStr content)) /\
  (forall e, field e "title" = undefined ->
             title (fill_defaults e) = JStr (js "Professional Development")) /\
  (forall e, field e "description" = undefined ->
             description (fill_defaults e) =
             JStr (js "Explore related opportunities on LinkedIn")) /\
  ((forall e v, In e (firstn 2 a) ->
                field e "title" = Some v \/ field e "description" = Some v ->
                is_string v = true) ->
   exists l, result (resolver env (JStr content)) = Normal l /\
             Forall string_fields l).
Proof.
  intros K O H P N.
  pose proof (resolver_with_text env create content text K O H) as R.
  rewrite P in R. destruct a as [|x a]; [congruence|]. clear N.
  split; [|split; [|split; [|split]]].
  - intros F. now rewrite R, (ensure_format_all _ F).
  - intros F. destruct (ensure_format_null _ F) as [e E]. now rewrite R, E.
  - intros e E. unfold fill_defaults. now rewrite E.
  - intros e E. unfold fill_defaults. now rewrite E.
  - intros S. rewrite R. clear R.
    destruct (in_dec (fun x y : bool => Bool.bool_dec x y) true
                (map (fun e => match e with JNull => true | _ => false end)
                     (firstn 2 (x :: a)))) as [Hn | Hn].
    + apply in_map_iff in Hn. destruct Hn as [e [En Hin]].
      destruct e; try discriminate En.
      destruct (ensure_format_null _ Hin) as [err ->].
      destruct (fallback_string content) as [l [E [_ [_ F]]]].
      exists l. split; [exact E|].
      eapply Forall_impl; [|exact F]. apply fixed_string_fields.
    + assert (F : Forall (fun e => e <> JNull) (firstn 2 (x :: a))).
      { apply Forall_forall. intros e Hin ->. apply Hn.
        apply in_map_iff. now exists JNull. }
      rewrite (ensure_format_all _ F). eexists. split; [reflexivity|].
      apply Forall_forall. intros s Hs.
      apply in_map_iff in Hs. destruct Hs as [e [<- Hin]].
      apply fill_defaults_strings. intros v Hv. exact (S e v Hin Hv).
Qed.

Lemma route_truthy_number (env : Env) (req_body : Json) (n : number) :
  destructure_content req_body = Normal (Some (JNum n)) ->
  truthy (Some (JNum n)) = true ->
  route env req_body =
  (Normal (mkResponse 500 (ErrorBody (js "Analysis temporarily unavailable"))),
   [ConsoleError (js "Analysis error:")
      (TypeError "content.substring is not a function")]).
Proof.
  intros B T. unfold analyze_content, analyze_content_try. rewrite B.
  unfold bind, lift. rewrite T. reflexivity.
Qed.

(** C10, as the code has it: a request whose [content] is a truthy number
    is not rejected by the validation, because [content.length] is
    undefined and [undefined < 10] is false; the route then faults at
    [content.substring(0, 100)], before the resolver is called, and answers
    the generic 500 instead of the 400 validation error. *)
Theorem numeric_content_faults_before_resolver
        (env : Env) (req_body : Json) (n : number) :
  destructure_content req_body = Normal (Some (JNum n)) ->
  truthy (Some (JNum n)) = true ->
  get_length (JNum n) = undefined /\
  less_than_10 coerced_below_ten undefined = Normal false /\
  call_substring (JNum n) 100 =
    Throw (TypeError "content.substring is not a function") /\
  result (route env req_body) =
    Normal (mkResponse 500 (ErrorBody (js "Analysis temporarily unavailable"))) /\
  result (route env req_body) <> Normal bad_request /\
  existsb is_resolver_call (trace (route env req_body)) = false.
Proof.
  intros B T. repeat (split; [reflexivity|]).
  rewrite (route_truthy_number env req_body n B T).
  repeat split. discriminate.
Qed.

(** The earlier copy of the resolver throws when the key is missing, and
    the route's [catch] block turns that failure into the 500
    configuration error. *)
Lemma legacy_missing_key_throws (module_missing : bool) (env : Env)
      (create : jsstring -> reply) (content : Json) :
  openai env = Normal create ->
  no_api_key env = true ->
  result (legacy_analyzeWithOpenAI unicode_toLowerCase module_missing
            env content) =
    Throw (mkError (js "OpenAI API key not configured")) /\
  on_error (mkError (js "OpenAI API key not configured")) =
    mkResponse 500 (ErrorBody (js "Service configuration error")).
Proof.
  intros O K. unfold legacy_analyzeWithOpenAI, require_openai.
  rewrite O, K. split; reflexivity.
Qed.

End Properties.

(** ** The claims on concrete requests *)

Example fallback_data_only :
  generateFallbackSuggestions ascii_host_lower (JStr (js "Big DATA is here")) =
  Normal [data_suggestion].
Proof. reflexivity. Qed.

Example fallback_three_families :
  generateFallbackSuggestions ascii_host_lower
    (JStr (js "Our TEAM loves Data and software")) =
  Normal [data_suggestion; leadership_suggestion].
Proof. reflexivity. Qed.

Lemma example_content_has_no_keyword :
  forall kw, In kw twelve_keywords ->
             ~ Contains (toLowerCase ascii_host_lower example_content) kw.
Proof.
  intros kw Hin Hc. apply includes_spec in Hc.
  unfold twelve_keywords, precedence in Hin.
  cbn [flat_map keywords app In] in Hin.
  repeat (destruct Hin as [<- | Hin]; [vm_compute in Hc; discriminate Hc|]).
  contradiction.
Qed.

Lemma fallback_defaults_without_keyword_witness :
  exists first second,
    generateFallbackSuggestions ascii_host_lower (JStr example_content) =
      Normal [first; second] /\
    title first = JStr (js "Professional Development") /\
    title second = JStr (js "Network Growth") /\
    [first; second] = default_suggestions.
Proof.
  apply (fallback_defaults_without_keyword ascii_host_lower example_content).
  exact example_content_has_no_keyword.
Defined.

Lemma missing_key_falls_back_witness :
  (10 <= List.length example_content)%nat /\
  no_api_key env_without_key = true /\
  exists l,
    generateFallbackSuggestions ascii_host_lower (JStr example_content) =
      Normal l /\
    result (analyzeWithOpenAI ascii_host_lower env_without_key
              (JStr example_content)) = Normal l /\
    existsb is_external_call
      (trace (analyzeWithOpenAI ascii_host_lower env_without_key
                (JStr example_content))) = false /\
    result (analyze_content ascii_host_lower ascii_host_below_ten
              env_without_key example_body) =
    Normal (mkResponse 200
              (AnalysisBody l (now env_without_key)
                 (Some (JNum (of_nat (List.length example_content)))))).
Proof.
  split; [vm_compute; lia|]. split; [reflexivity|].
  apply (missing_key_falls_back ascii_host_lower ascii_host_below_ten
           env_without_key example_body example_content).
  - vm_compute; lia.
  - reflexivity.
  - reflexivity.
Defined.

Lemma short_content_rejected_witness :
  result (analyze_content ascii_host_lower ascii_host_below_ten
            env_without_key (JObj [(js "content", JStr (js "too short"))])) =
  Normal (mkResponse 400
            (ErrorBody
               (js "Content is required and must be at least 10 characters long"))) /\
  existsb is_resolver_call
    (trace (analyze_content ascii_host_lower ascii_host_below_ten
              env_without_key (JObj [(js "content", JStr (js "too short"))])))
  = false.
Proof.
  apply (short_content_rejected ascii_host_lower ascii_host_below_ten).
  right. exists (js "too short"). split; [reflexivity | vm_compute; lia].
Defined.

Lemma fenced_example_normalised_witness :
  no_api_key (env_answering fenced_example) = false /\
  result (analyzeWithOpenAI ascii_host_lower (env_answering fenced_example)
            (JStr example_content)) =
    Normal [mkSuggestion (JStr (js "X"))
              (JStr (js "Explore related opportunities on LinkedIn"))].
Proof.
  split; [reflexivity|].
  apply (fenced_example_normalised ascii_host_lower
           (env_answering fenced_example)
           (fun _ => Completed (Some fenced_example)) example_content);
    reflexivity.
Defined.

(** C2 as stated fails: the text [[]] parses as an empty array, and the
    resolver returns the two default suggestions, not an empty list. *)
Lemma empty_array_not_returned :
  no_api_key (env_answering (js "[]")) = false /\
  JSON_parse (clean_up (js "[]")) = Some (JArr []) /\
  result (analyzeWithOpenAI ascii_host_lower (env_answering (js "[]"))
            (JStr example_content)) = Normal default_suggestions /\
  result (analyzeWithOpenAI ascii_host_lower (env_answering (js "[]"))
            (JStr example_content)) <> Normal [].
Proof.
  repeat split; try reflexivity. vm_compute. discriminate.
Qed.

Lemma empty_array_falls_back_witness :
  JSON_parse (clean_up (js "[]")) = Some (JArr []) /\
  exists l,
    generateFallbackSuggestions ascii_host_lower (JStr example_content) =
      Normal l /\ l <> [] /\
    result (analyzeWithOpenAI ascii_host_lower (env_answering (js "[]"))
              (JStr example_content)) = Normal l.
Proof.
  split; [reflexivity|].
  apply (empty_array_falls_back ascii_host_lower (env_answering (js "[]"))
           (fun _ => Completed (Some (js "[]"))) example_content (js "[]"));
    reflexivity.
Defined.

Lemma parse_failure_same_as_missing_key_witness :
  JSON_parse (clean_up (js "Sorry, no idea")) = None /\
  exists l,
    generateFallbackSuggestions ascii_host_lower (JStr example_content) =
      Normal l /\
    result (analyzeWithOpenAI ascii_host_lower
              (env_answering (js "Sorry, no idea")) (JStr example_content)) =
      Normal l /\
    result (analyzeWithOpenAI ascii_host_lower env_without_key
              (JStr example_content)) = Normal l.
Proof.
  split; [reflexivity|].
  apply (parse_failure_same_as_missing_key ascii_host_lower
           (env_answering (js "Sorry, no idea")) env_without_key
           (fun _ => Completed (Some (js "Sorry, no idea")))
           example_content (js "Sorry, no idea")); reflexivity.
Defined.

(** C8 as stated fails: the array [[{"title":5}]] is normalized to a
    record whose title is the number 5, not a string. *)
Lemma numeric_title_kept :
  JSON_parse (clean_up numeric_title_example) =
    Some (JArr [JObj [(js "title", JNum (Num false 5 0))]]) /\
  result (analyzeWithOpenAI ascii_host_lower
            (env_answering numeric_title_example) (JStr example_content)) =
    Normal [mkSuggestion (JNum (Num false 5 0))
              (JStr (js "Explore related opportunities on LinkedIn"))] /\
  is_string (JNum (Num false 5 0)) = false.
Proof. repeat split; reflexivity. Qed.

Lemma normalised_fields_witness :
  result (analyzeWithOpenAI ascii_host_lower (env_answering fenced_example)
            (JStr example_content)) =
    Normal (map fill_defaults [JObj [(js "title", JStr (js "X"))]]) /\
  exists l,
    result (analyzeWithOpenAI ascii_host_lower (env_answering fenced_example)
              (JStr example_content)) = Normal l /\
    Forall string_fields l.
Proof.
  destruct (normalised_fields ascii_host_lower (env_answering fenced_example)
              (fun _ => Completed (Some fenced_example)) example_content
              fenced_example [JObj [(js "title", JStr (js "X"))]]
              eq_refl eq_refl eq_refl eq_refl)
    as [A [_ [_ [_ B]]]].
  - discriminate.
  - split.
    + apply A. repeat constructor; discriminate.
    + apply B. intros e v [<- | []] [F | F];
        vm_compute in F; [now injection F as <- | discriminate F].
Defined.

(** C10 as stated fails: no request makes the route call the resolver with
    a content that is not a string. *)
Lemma resolver_never_called_with_non_string :
  ~ exists (unicode_toLowerCase : jsstring -> jsstring)
           (coerced_below_ten : Json -> completion bool)
           (env : Env) (req_body c : Json),
      destructure_content req_body = Normal (Some c) /\
      is_string c = false /\
      existsb is_resolver_call
        (trace (analyze_content unicode_toLowerCase coerced_below_ten
                  env req_body)) = true.
Proof.
  intros [lower [below [env [req_body [c [B [S T]]]]]]].
  rewrite (route_non_string lower below env req_body c B S) in T.
  discriminate T.
Qed.

Lemma numeric_content_faults_before_resolver_witness :
  truthy (Some (JNum (Num false 12345 0))) = true /\
  result (analyze_content ascii_host_lower ascii_host_below_ten
            env_without_key numeric_body) =
    Normal (mkResponse 500 (ErrorBody (js "Analysis temporarily unavailable"))) /\
  existsb is_resolver_call
    (trace (analyze_content ascii_host_lower ascii_host_below_ten
              env_without_key numeric_body)) = false.
Proof.
  split; [reflexivity|].
  destruct (numeric_content_faults_before_resolver
              ascii_host_lower ascii_host_below_ten env_without_key
              numeric_body (Num false 12345 0) eq_refl eq_refl)
    as [_ [_ [_ [R [_ T]]]]].
  split; [exact R | exact T].
Defined.

(** ** Further properties of the code *)

(** *** The clean-up of the response text *)

Lemma str_eqb_eq (a b : jsstring) : str_eqb a b = true <-> a = b.
Proof.
  revert b; induction a as [|x a IH]; intros [|y b]; simpl;
    try (split; [discriminate | discriminate]); [tauto|].
  rewrite andb_true_iff, N.eqb_eq, IH. split.
  - intros [-> ->]. reflexivity.
  - intros H. injection H as -> ->. tauto.
Qed.

Lemma remove_all_skipn (lit : jsstring) (s : jsstring) :
  forall k, remove_all lit k s = remove_all lit 0 (skipn k s).
Proof.
  induction s as [|c s IH]; intros [|k]; try reflexivity.
  cbn [remove_all skipn]. apply IH.
Qed.

Lemma remove_all_scan (lit : jsstring) (c : N) (s : jsstring) :
  remove_all lit 0 (c :: s) =
  if starts_with lit (c :: s)
  then remove_all lit 0 (skipn (fence_match_length lit (c :: s) - 1) s)
  else c :: remove_all lit 0 s.
Proof.
  cbn [remove_all]. destruct (starts_with lit (c :: s)); [|reflexivity].
  apply remove_all_skipn.
Qed.

Lemma remove_all_absent (lit s : jsstring) :
  includes s lit = false -> remove_all lit 0 s = s.
Proof.
  induction s as [|c s IH]; [reflexivity|].
  cbn [includes]. intros H. apply orb_false_iff in H. destruct H as [H1 H2].
  rewrite remove_all_scan, H1. now rewrite IH.
Qed.

Lemma starts_with_fence (s : jsstring) :
  starts_with fence s = true <-> exists r, s = 96%N :: 96%N :: 96%N :: r.
Proof. apply starts_with_spec. Qed.

(** Where the scan keeps a code unit, the text does not open with a
    fence. *)
Lemma kept_backticks (s : jsstring) :
  starts_with fence s = false ->
  starts_with fence (remove_all fence 0 s) = false.
Proof.
  intros H.
  destruct s as [|a s]; [reflexivity|].
  rewrite remove_all_scan, H.
  destruct (starts_with fence (a :: remove_all fence 0 s)) eqn:E;
    [|reflexivity].
  apply starts_with_fence in E. destruct E as [r E]. injection E as -> E.
  assert (H1 : starts_with fence s = false).
  { destruct (starts_with fence s) eqn:F; [|reflexivity].
    apply starts_with_fence in F. destruct F as [q ->]. discriminate H. }
  destruct s as [|b s]; [discriminate E|].
  rewrite remove_all_scan, H1 in E. injection E as -> E.
  assert (H2 : starts_with fence s = false).
  { destruct (starts_with fence s) eqn:F; [|reflexivity].
    apply starts_with_fence in F. destruct F as [q ->]. discriminate H1. }
  destruct s as [|c s]; [discriminate E|].
  rewrite remove_all_scan, H2 in E. injection E as -> _.
  discriminate H.
Qed.

Lemma remove_fence_complete (n : nat) :
  forall s, (List.length s <= n)%nat ->
            includes (remove_all fence 0 s) fence = false.
Proof.
  induction n as [|n IH]; intros s L.
  - destruct s; [reflexivity | simpl in L; lia].
  - destruct s as [|c s]; [reflexivity|]. simpl in L.
    rewrite remove_all_scan.
    destruct (starts_with fence (c :: s)) eqn:F.
    + apply IH. rewrite length_skipn. lia.
    + pose proof (kept_backticks (c :: s) F) as K.
      rewrite remove_all_scan, F in K.
      cbn [includes]. rewrite K. apply IH. lia.
Qed.

Lemma trim_start_suffix (s : jsstring) : exists p, s = p ++ trim_start s.
Proof.
  induction s as [|c s [p IH]]; [now exists []|].
  cbn [trim_start]. destruct (is_space c).
  - exists (c :: p). simpl. now rewrite <- IH.
  - now exists [].
Qed.

(** [trim] cuts a piece out of its argument. *)
Lemma trim_piece (s : jsstring) : exists p q, s = p ++ trim s ++ q.
Proof.
  unfold trim. destruct (trim_start_suffix s) as [p Hp].
  destruct (trim_start_suffix (rev (trim_start s))) as [q Hq].
  exists p, (rev q).
  rewrite <- rev_app_distr, <- Hq, rev_involutive. exact Hp.
Qed.

Lemma Contains_piece (s p q kw : jsstring) :
  Contains s kw -> Contains (p ++ s ++ q) kw.
Proof.
  intros [a [b ->]]. exists (p ++ a), (b ++ q).
  now rewrite <- !app_assoc.
Qed.

Lemma trim_keeps_absent (s kw : jsstring) :
  includes s kw = false -> includes (trim s) kw = false.
Proof.
  intros H. apply includes_false. intros C.
  destruct (trim_piece s) as [p [q E]].
  apply (Contains_piece _ p q) in C. rewrite <- E in C.
  apply includes_spec in C. congruence.
Qed.

Lemma trim_start_fixed (s : jsstring) :
  match s with c :: _ => is_space c = false | [] => True end ->
  trim_start s = s.
Proof. destruct s as [|c s]; [reflexivity|]. simpl. now intros ->. Qed.

Lemma trim_start_head (s : jsstring) :
  match trim_start s with c :: _ => is_space c = false | [] => True end.
Proof.
  induction s as [|c s IH]; [exact I|].
  cbn [trim_start]. destruct (is_space c) eqn:E; [exact IH | exact E].
Qed.

Lemma trim_idempotent (s : jsstring) : trim (trim s) = trim s.
Proof.
  unfold trim. set (t := trim_start s). set (u := trim_start (rev t)).
  assert (Hu : trim_start (rev u) = rev u).
  { apply trim_start_fixed.
    destruct (trim_start_suffix (rev t)) as [p Hp]. fold u in Hp.
    assert (Ht : t = rev u ++ rev p)
      by (rewrite <- rev_app_distr, <- Hp; now rewrite rev_involutive).
    pose proof (trim_start_head s) as Hh. fold t in Hh.
    destruct (rev u) as [|x r]; [exact I|].
    rewrite Ht in Hh. exact Hh. }
  rewrite Hu, rev_involutive.
  rewrite (trim_start_fixed u); [reflexivity|].
  apply trim_start_head.
Qed.

Lemma json_fence_has_fence (s : jsstring) :
  includes s fence = false -> includes s (js "```json") = false.
Proof.
  intros H. apply includes_false. intros [p [q ->]].
  assert (C : Contains (p ++ js "```json" ++ q) fence).
  { exists p, (js "json" ++ q). reflexivity. }
  apply includes_spec in C. congruence.
Qed.

(** X16: whatever the response text, the cleaned text holds no code fence. *)
Theorem clean_up_leaves_no_fence (text : jsstring) :
  ~ Contains (clean_up text) (js "```").
Proof.
  intros C. apply includes_spec in C. unfold clean_up in C.
  rewrite trim_keeps_absent in C; [discriminate|].
  exact (remove_fence_complete _ _ (le_n _)).
Qed.

(** X17: a response text without a code fence is only trimmed. *)
Theorem clean_up_without_fence (text : jsstring) :
  ~ Contains text (js "```") ->
  clean_up text = trim text.
Proof.
  intros H. apply includes_false in H. unfold clean_up.
  pose proof (trim_keeps_absent _ _ H) as T.
  rewrite (remove_all_absent _ _ (json_fence_has_fence _ T)).
  rewrite (remove_all_absent (js "```") _ T).
  apply trim_idempotent.
Qed.

(** *** The keyword generator *)

Lemma suggestion_of_injective (f g : family) :
  suggestion_of f = suggestion_of g -> f = g.
Proof.
  destruct f, g; try reflexivity; intros H; vm_compute in H; discriminate H.
Qed.

Lemma suggestion_of_not_default (f : family) :
  ~ In (suggestion_of f) default_suggestions.
Proof.
  unfold default_suggestions. cbn [In].
  intros [H | [H | []]]; destruct f; vm_compute in H; discriminate H.
Qed.

Lemma defaults_distinct : NoDup default_suggestions.
Proof.
  unfold default_suggestions. constructor; [|constructor; [tauto | constructor]].
  cbn [In]. intros [H | []]. vm_compute in H. discriminate H.
Qed.

Lemma ascii_lower_ascii (s : jsstring) :
  forallb is_ascii s = true -> forallb is_ascii (map ascii_lower s) = true.
Proof.
  induction s as [|c s IH]; [reflexivity|].
  cbn [forallb map]. rewrite !andb_true_iff. intros [H1 H2].
  split; [|now apply IH].
  unfold is_ascii, ascii_lower in *. apply N.ltb_lt in H1. apply N.ltb_lt.
  destruct ((65 <=? c) && (c <=? 90))%N eqn:E; [|exact H1].
  apply andb_true_iff in E. destruct E as [_ E]. apply N.leb_le in E. lia.
Qed.

Lemma ascii_lower_idempotent (s : jsstring) :
  map ascii_lower (map ascii_lower s) = map ascii_lower s.
Proof.
  rewrite map_map. apply map_ext. intros c. unfold ascii_lower.
  destruct ((65 <=? c) && (c <=? 90))%N eqn:E; [|now rewrite E].
  apply andb_true_iff in E. destruct E as [E1 E2].
  apply N.leb_le in E1. apply N.leb_le in E2.
  destruct ((65 <=? c + 32) && (c + 32 <=? 90))%N eqn:F; [|reflexivity].
  apply andb_true_iff in F. destruct F as [_ F]. apply N.leb_le in F. lia.
Qed.

Lemma In_suggestion_of (f : family) (gs : list family) :
  In (suggestion_of f) (map suggestion_of gs) <-> In f gs.
Proof.
  rewrite in_map_iff. split.
  - intros [g [H Hg]]. apply suggestion_of_injective in H. now subst.
  - intros H. now exists f.
Qed.

Section Generator.

Variable unicode_toLowerCase : jsstring -> jsstring.

Local Notation lower := (toLowerCase unicode_toLowerCase).
Local Notation fallback := (generateFallbackSuggestions unicode_toLowerCase).

Lemma lower_ascii_lower (s : jsstring) :
  forallb is_ascii s = true -> lower (map ascii_lower s) = lower s.
Proof.
  intros H. unfold toLowerCase.
  now rewrite H, (ascii_lower_ascii s H), ascii_lower_idempotent.
Qed.

(** X12: the generator never returns a suggestion twice. *)
Theorem fallback_distinct (content : jsstring) :
  exists l, fallback (JStr content) = Normal l /\ NoDup l.
Proof.
  rewrite fallback_by_families. eexists. split; [reflexivity|].
  unfold matched_families, precedence. cbn [filter].
  destruct (family_matches _ Data), (family_matches _ Marketing),
    (family_matches _ Leadership), (family_matches _ Tech);
    cbn [map firstn];
    try exact defaults_distinct;
    repeat (constructor;
            [cbn [In]; intros [H | []];
             apply suggestion_of_injective in H; discriminate H|]);
    repeat (constructor; [cbn [In]; tauto|]); constructor.
Qed.

(** X13: when the lower-cased content contains a keyword, every returned
    suggestion is the one of a matched family, and no default suggestion
    is returned. *)
Theorem fallback_keyword_suggestions_only (content kw : jsstring) :
  In kw twelve_keywords ->
  Contains (lower content) kw ->
  exists l,
    fallback (JStr content) = Normal l /\
    forall s, In s l ->
      (exists f, In f (matched_families (lower content)) /\
                 s = suggestion_of f) /\
      ~ In s default_suggestions.
Proof.
  intros K C. rewrite fallback_by_families. eexists. split; [reflexivity|].
  apply in_flat_map in K. destruct K as [f [Hf Hk]].
  assert (M : In f (matched_families (lower content))).
  { apply filter_In. split; [exact Hf|].
    apply family_matches_spec. now exists kw. }
  destruct (matched_families (lower content)) as [|g ms] eqn:E;
    [contradiction|].
  intros s Hs. apply In_firstn in Hs. apply in_map_iff in Hs.
  destruct Hs as [h [<- Hh]]. split.
  - now exists h.
  - apply suggestion_of_not_default.
Qed.

(** X14: a matched family loses its suggestion to the cut at two exactly when
    two families of higher precedence match as well. *)
Theorem fallback_keeps_family (content : jsstring) (f : family) :
  exists l,
    fallback (JStr content) = Normal l /\
    (In (suggestion_of f) l <->
     family_matches (lower content) f = true /\
     (List.length (filter (fun g => rank g <? rank f)%nat
                     (matched_families (lower content))) < 2)%nat).
Proof.
  rewrite fallback_by_families. eexists. split; [reflexivity|].
  destruct (matched_families (lower content)) as [|g ms] eqn:E.
  - split.
    + intros H. apply In_firstn in H.
      now apply suggestion_of_not_default in H.
    + intros [H _]. exfalso.
      assert (M : In f (matched_families (lower content)))
        by (apply filter_In; split; [destruct f; cbn; tauto | exact H]).
      now rewrite E in M.
  - rewrite <- E, firstn_map, In_suggestion_of. clear E g ms.
    unfold matched_families, precedence. cbn [filter].
    destruct (family_matches _ Data) eqn:D,
      (family_matches _ Marketing) eqn:Mk,
      (family_matches _ Leadership) eqn:Ld,
      (family_matches _ Tech) eqn:T;
      destruct f; rewrite ?D, ?Mk, ?Ld, ?T;
      simpl;
      (split;
       [ intros H;
         repeat (destruct H as [H | H];
                 [first [discriminate H | split; [reflexivity | lia]]|]);
         contradiction
       | intros [H L]; try discriminate H; try lia; tauto ]).
Qed.

(** X15: two ASCII contents that differ only in the case of their letters get
    the same suggestions. *)
Theorem fallback_ignores_ascii_case (a b : jsstring) :
  forallb is_ascii a = true ->
  forallb is_ascii b = true ->
  map ascii_lower a = map ascii_lower b ->
  fallback (JStr a) = fallback (JStr b).
Proof.
  intros A B E. rewrite !fallback_by_families.
  now rewrite <- (lower_ascii_lower a A), <- (lower_ascii_lower b B), E.
Qed.

End Generator.

(** *** The resolver and the route *)

Lemma map_completion_length {A B} (f : A -> completion B) (l : list A)
      (r : list B) :
  map_completion f l = Normal r -> List.length r = List.length l.
Proof.
  revert r; induction l as [|x l IH]; intros r H; cbn [map_completion] in H.
  - injection H as <-. reflexivity.
  - destruct (f x); [|discriminate].
    destruct (map_completion f l); [|discriminate].
    injection H as <-. simpl. now rewrite (IH _ eq_refl).
Qed.

Lemma on_error_cases (error : Error) :
  on_error error =
    mkResponse 500 (ErrorBody (js "Service configuration error")) \/
  on_error error =
    mkResponse 429 (ErrorBody (js "Service temporarily busy, please try again")) \/
  on_error error =
    mkResponse 500 (ErrorBody (js "Analysis temporarily unavailable")).
Proof.
  unfold on_error. destruct (includes _ _); [tauto|].
  destruct (includes _ _); tauto.
Qed.

Section Resolver.

Variable unicode_toLowerCase : jsstring -> jsstring.
Variable coerced_below_ten : Json -> completion bool.

Local Notation fallback := (generateFallbackSuggestions unicode_toLowerCase).
Local Notation resolver := (analyzeWithOpenAI unicode_toLowerCase).
Local Notation route := (analyze_content unicode_toLowerCase coerced_below_ten).

Lemma resolver_load_failure (env : Env) (content : Json) (e : Error) :
  no_api_key env = false ->
  openai env = Throw e ->
  resolver env content =
  (fallback content,
   [ResolverCall content; ConsoleError (js "OpenAI API error:") e]).
Proof.
  intros K O. unfold analyzeWithOpenAI. now rewrite K, O.
Qed.

Lemma resolver_no_text (env : Env) (create : jsstring -> reply)
      (c : jsstring) (e : Error) :
  no_api_key env = false ->
  openai env = Normal create ->
  create (user_message (substring0 400 c)) = Rejected e \/
  create (user_message (substring0 400 c)) = Completed None /\
  e = TypeError "Cannot read properties of null (reading 'trim')" ->
  resolver env (JStr c) =
  (fallback (JStr c),
   [ResolverCall (JStr c); ExternalCall (user_message (substring0 400 c));
    ConsoleError (js "OpenAI API error:") e]).
Proof.
  intros K O H. unfold analyzeWithOpenAI, ask_openai, call_substring.
  rewrite K, O. unfold bind, lift, tell, throw, try_catch.
  destruct H as [-> | [-> ->]]; reflexivity.
Qed.

Lemma ensure_format_normal (elements : list Json) (r : list Suggestion) :
  map_completion ensure_format elements = Normal r ->
  Forall (fun e => e <> JNull) elements /\ r = map fill_defaults elements.
Proof.
  revert r; induction elements as [|e es IH]; intros r H;
    cbn [map_completion] in H.
  - injection H as <-. split; [constructor | reflexivity].
  - destruct (ensure_format e) as [s|] eqn:Ee; [|discriminate].
    destruct (map_completion ensure_format es) as [ss|]; [|discriminate].
    injection H as <-. destruct (IH ss eq_refl) as [F ->].
    assert (Hn : e <> JNull) by (intros ->; discriminate).
    rewrite (ensure_format_not_null e Hn) in Ee. injection Ee as <-.
    split; [now constructor | reflexivity].
Qed.

(** What the resolver returns for a string: the generator's result, or
    the first two elements of the parsed array with the defaults filled
    in. *)
Lemma resolver_string_cases (env : Env) (c : jsstring) :
  result (resolver env (JStr c)) = fallback (JStr c) \/
  exists create text a,
    no_api_key env = false /\
    openai env = Normal create /\
    create (user_message (substring0 400 c)) = Completed (Some text) /\
    JSON_parse (clean_up text) = Some (JArr a) /\
    a <> [] /\
    Forall (fun e => e <> JNull) (firstn 2 a) /\
    result (resolver env (JStr c)) = Normal (map fill_defaults (firstn 2 a)).
Proof.
  destruct (no_api_key env) eqn:K.
  { left. now rewrite (resolver_without_key _ env _ K). }
  destruct (openai env) as [create | e] eqn:O.
  2: { left. now rewrite (resolver_load_failure env _ e K O). }
  destruct (create (user_message (substring0 400 c))) as [e | [text|]] eqn:R.
  - left. rewrite (resolver_no_text env create c e K O); [reflexivity|].
    now left.
  - rewrite (resolver_with_text _ env create c text K O R).
    destruct (JSON_parse (clean_up text)) as [[| | | |[|x a]|]|] eqn:P;
      try (now left).
    destruct (map_completion ensure_format (firstn 2 (x :: a))) as [r|] eqn:M;
      [|now left].
    right. exists create, text, (x :: a).
    destruct (ensure_format_normal _ _ M) as [F ->].
    repeat split; try assumption. discriminate.
  - left.
    rewrite (resolver_no_text env create c
               (TypeError "Cannot read properties of null (reading 'trim')")
               K O); [reflexivity|].
    right. split; [exact R | reflexivity].
Qed.

Lemma resolver_string_result (env : Env) (c : jsstring) :
  exists l, result (resolver env (JStr c)) = Normal l /\
            (1 <= List.length l <= 2)%nat.
Proof.
  destruct (resolver_string_cases env c)
    as [H | [create [text [a [_ [_ [_ [_ [N [_ H]]]]]]]]]].
  - destruct (fallback_string unicode_toLowerCase c) as [fb [E [Nf [L _]]]].
    exists fb. rewrite H. split; [exact E|].
    destruct fb; [congruence | simpl in *; lia].
  - eexists. split; [exact H|].
    rewrite length_map, length_firstn.
    destruct a; [congruence | cbn [List.length]; lia].
Qed.

(** X1: for string content the resolver never throws, whatever the key, the
    client and the answer of the API: it returns one or two suggestions,
    which are the generator's result or the first two elements of the
    array in the response with the defaults filled in. *)
Theorem resolver_never_throws_on_strings (env : Env) (content : jsstring) :
  exists l,
    result (resolver env (JStr content)) = Normal l /\
    (1 <= List.length l <= 2)%nat /\
    (fallback (JStr content) = Normal l \/
     exists create text a,
       openai env = Normal create /\
       create (user_message (substring0 400 content)) =
         Completed (Some text) /\
       JSON_parse (clean_up text) = Some (JArr a) /\
       l = map fill_defaults (firstn 2 a)).
Proof.
  destruct (resolver_string_cases env content)
    as [H | [create [text [a [_ [O [R [P [N [_ H]]]]]]]]]].
  - destruct (fallback_string unicode_toLowerCase content)
      as [fb [E [Nf [L _]]]].
    exists fb. rewrite H. split; [exact E|].
    split; [destruct fb; [congruence | simpl in *; lia] | now left].
  - eexists. split; [exact H|]. split.
    + rewrite length_map, length_firstn.
      destruct a; [congruence | cbn [List.length]; lia].
    + right. now exists create, text, a.
Qed.

(** X2: a request that the API rejects, or a response without message text, is
    logged and replaced by the generator's result. *)
Theorem api_failure_absorbed (env : Env) (create : jsstring -> reply)
        (content : jsstring) (e : Error) :
  no_api_key env = false ->
  openai env = Normal create ->
  create (user_message (substring0 400 content)) = Rejected e \/
  create (user_message (substring0 400 content)) = Completed None /\
  e = TypeError "Cannot read properties of null (reading 'trim')" ->
  result (resolver env (JStr content)) = fallback (JStr content) /\
  In (ConsoleError (js "OpenAI API error:") e)
     (trace (resolver env (JStr content))).
Proof.
  intros K O H. rewrite (resolver_no_text env create content e K O H).
  split; [reflexivity|]. cbn [trace snd In]. tauto.
Qed.

(** X3: when the client library cannot be loaded, the failure is logged, no
    request is sent and the generator's result is returned. *)
Theorem load_failure_absorbed (env : Env) (content : jsstring) (e : Error) :
  no_api_key env = false ->
  openai env = Throw e ->
  result (resolver env (JStr content)) = fallback (JStr content) /\
  existsb is_external_call (trace (resolver env (JStr content))) = false /\
  In (ConsoleError (js "OpenAI API error:") e)
     (trace (resolver env (JStr content))).
Proof.
  intros K O. rewrite (resolver_load_failure env (JStr content) e K O).
  repeat split. cbn [trace snd In]. tauto.
Qed.

(** X4: a response whose cleaned text is valid JSON but not an array (an
    object, a string, a number, a boolean, null) gives the generator's
    result. *)
Theorem non_array_falls_back (env : Env) (create : jsstring -> reply)
        (content text : jsstring) (v : Json) :
  no_api_key env = false ->
  openai env = Normal create ->
  create (user_message (substring0 400 content)) = Completed (Some text) ->
  JSON_parse (clean_up text) = Some v ->
  (forall a, v <> JArr a) ->
  result (resolver env (JStr content)) = fallback (JStr content).
Proof.
  intros K O R P N.
  rewrite (resolver_with_text _ env create content text K O R), P.
  destruct v; try reflexivity. now destruct (N elements).
Qed.

(** X5: for content that is not a string the resolver throws, with or without
    a key: the generator called in its [catch] block faults as well. *)
Theorem resolver_throws_on_non_string (env : Env) (content : Json) :
  is_string content = false ->
  exists e, result (resolver env content) = Throw e /\
            fallback content = Throw e.
Proof.
  intros S.
  assert (F : exists e, fallback content = Throw e).
  { destruct content; try discriminate S; eexists; reflexivity. }
  destruct F as [e F]. exists e. split; [|exact F].
  destruct (no_api_key env) eqn:K.
  { now rewrite (resolver_without_key _ env _ K). }
  destruct (openai env) as [create | e'] eqn:O.
  2: { now rewrite (resolver_load_failure env _ e' K O). }
  unfold analyzeWithOpenAI, ask_openai. rewrite K, O, F.
  destruct content; try discriminate S; reflexivity.
Qed.

End Resolver.

Lemma existsb_filter {A} (p : A -> bool) (l : list A) :
  existsb p l = match filter p l with [] => false | _ :: _ => true end.
Proof.
  induction l as [|x l IH]; [reflexivity|].
  cbn [existsb filter]. destruct (p x); [reflexivity | exact IH].
Qed.

Section Route.

Variable unicode_toLowerCase : jsstring -> jsstring.
Variable coerced_below_ten : Json -> completion bool.

Local Notation fallback := (generateFallbackSuggestions unicode_toLowerCase).
Local Notation resolver := (analyzeWithOpenAI unicode_toLowerCase).
Local Notation route := (analyze_content unicode_toLowerCase coerced_below_ten).

Lemma ask_openai_calls (create : jsstring -> reply) (c : jsstring) :
  filter is_external_call
    (trace (ask_openai unicode_toLowerCase create (JStr c))) =
  [ExternalCall (user_message (substring0 400 c))].
Proof.
  destruct (fallback_string unicode_toLowerCase c) as [fb [E [N _]]].
  destruct fb as [|s fb]; [congruence|].
  unfold ask_openai, call_substring, fallback_array.
  unfold bind, lift, tell, ret, throw, trace. rewrite E.
  destruct (create _) as [e | [text|]]; try reflexivity.
  destruct (JSON_parse (clean_up text)) as [[| | | |[|x a]|]|];
    cbn [map]; destruct (map_completion ensure_format _); reflexivity.
Qed.

Lemma resolver_external_calls (env : Env) (c : jsstring) :
  filter is_external_call (trace (resolver env (JStr c))) =
  if no_api_key env then []
  else match openai env with
       | Throw _ => []
       | Normal _ => [ExternalCall (user_message (substring0 400 c))]
       end.
Proof.
  destruct (no_api_key env) eqn:K.
  { now rewrite (resolver_without_key _ env _ K). }
  destruct (openai env) as [create | e] eqn:O.
  2: { now rewrite (resolver_load_failure _ env _ e K O). }
  pose proof (ask_openai_calls create c) as A.
  destruct (fallback_string unicode_toLowerCase c) as [fb [E _]].
  unfold analyzeWithOpenAI. rewrite K, O, E.
  unfold bind, lift, tell, ret, try_catch, trace in *.
  destruct (ask_openai _ create (JStr c)) as [[r | e] t]; cbn [snd] in A;
    cbn [snd app filter is_external_call].
  - exact A.
  - rewrite filter_app, A. reflexivity.
Qed.

(** X6: serving one string content, the resolver sends at most one request to
    the API, none without a key, and the request carries no more than the
    first 400 code units of the content. *)
Theorem external_call_bounded (env : Env) (content : jsstring) :
  let calls :=
    filter is_external_call (trace (resolver env (JStr content))) in
  (calls = [] \/
   calls = [ExternalCall (user_message (substring0 400 content))]) /\
  (no_api_key env = true -> calls = []) /\
  (List.length (substring0 400 content) <= 400)%nat /\
  (List.length (user_message (substring0 400 content)) <= 433)%nat.
Proof.
  cbv zeta. rewrite resolver_external_calls.
  split; [|split; [|split]].
  - destruct (no_api_key env); [now left|].
    destruct (openai env); [now right | now left].
  - now intros ->.
  - unfold substring0. rewrite length_firstn. lia.
  - unfold user_message, substring0. rewrite !length_app, length_firstn.
    change (List.length (js "Analyze this LinkedIn content: ")) with 31%nat.
    cbn [List.length]. lia.
Qed.

(** X7: the [openaiConfigured] flag of [GET /health] tells whether the
    resolver, given string content and a client that loads, sends a
    request to the API. *)
Theorem health_flag_tells_external_call
        (env : Env) (proc : Process) (create : jsstring -> reply)
        (content : jsstring) :
  openai env = Normal create ->
  field (payload (health_route env proc)) "openaiConfigured" =
  Some (JBool (existsb is_external_call
                 (trace (resolver env (JStr content))))).
Proof.
  intros O. rewrite existsb_filter, resolver_external_calls, O.
  unfold health_route, field, payload. destruct (no_api_key env); reflexivity.
Qed.

Lemma route_long_string_ok (env : Env) (req_body : Json) (c : jsstring) :
  destructure_content req_body = Normal (Some (JStr c)) ->
  (10 <= List.length c)%nat ->
  exists l,
    result (resolver env (JStr c)) = Normal l /\
    (1 <= List.length l <= 2)%nat /\
    route env req_body =
    (Normal (mkResponse 200
               (AnalysisBody l (now env)
                  (Some (JNum (of_nat (List.length c)))))),
     ConsoleLog (substring0 100 c) :: trace (resolver env (JStr c))).
Proof.
  intros B L.
  destruct (resolver_string_result unicode_toLowerCase env c) as [l [E Bl]].
  exists l. split; [exact E|]. split; [exact Bl|].
  rewrite (route_long_string _ _ env req_body c B L).
  unfold result, trace in *.
  destruct (analyzeWithOpenAI _ env (JStr c)) as [r t]. cbn [fst snd] in *.
  subst r. unfold bind, tell, ret, try_catch. cbn [app].
  now rewrite app_nil_r.
Qed.

(** X9: string content of ten code units or more is always answered 200, with
    one or two suggestions and the length of the content, whatever the key
    and whatever the API does: for such content the [catch] block of the
    route is never entered. *)
Theorem long_string_always_200 (env : Env) (req_body : Json)
        (content : jsstring) :
  destructure_content req_body = Normal (Some (JStr content)) ->
  (10 <= List.length content)%nat ->
  exists l,
    result (route env req_body) =
    Normal (mkResponse 200
              (AnalysisBody l (now env)
                 (Some (JNum (of_nat (List.length content)))))) /\
    (1 <= List.length l <= 2)%nat.
Proof.
  intros B L.
  destruct (route_long_string_ok env req_body content B L) as [l [E [Bl R]]].
  exists l. rewrite R. split; [reflexivity | exact Bl].
Qed.

(** X10: every answer of the route is a 200 with suggestions, sent only for
    string content of ten code units or more, or one of four fixed error
    answers: the text of a failure is never sent to the client. *)
Theorem route_answers (env : Env) (req_body : Json) :
  exists r,
    result (route env req_body) = Normal r /\
    ((exists c l,
        destructure_content req_body = Normal (Some (JStr c)) /\
        (10 <= List.length c)%nat /\
        r = mkResponse 200
              (AnalysisBody l (now env)
                 (Some (JNum (of_nat (List.length c)))))) \/
     r = mkResponse 400
           (ErrorBody
              (js "Content is required and must be at least 10 characters long")) \/
     r = mkResponse 500 (ErrorBody (js "Service configuration error")) \/
     r = mkResponse 429
           (ErrorBody (js "Service temporarily busy, please try again")) \/
     r = mkResponse 500 (ErrorBody (js "Analysis temporarily unavailable"))).
Proof.
  assert (Err : forall e,
            on_error e =
              mkResponse 500 (ErrorBody (js "Service configuration error")) \/
            on_error e =
              mkResponse 429
                (ErrorBody (js "Service temporarily busy, please try again")) \/
            on_error e =
              mkResponse 500
                (ErrorBody (js "Analysis temporarily unavailable")))
    by apply on_error_cases.
  destruct (destructure_content req_body) as [[c|] | e] eqn:B.
  - destruct c as [| b | n | s | a | ms].
    4: { destruct (Nat.lt_ge_cases (List.length s) 10) as [L | L].
         - exists bad_request.
           rewrite (route_short_string _ _ env req_body s B L).
           split; [reflexivity | right; left; reflexivity].
         - destruct (route_long_string_ok env req_body s B L)
             as [l [_ [_ R]]].
           eexists. rewrite R. split; [reflexivity|].
           left. exists s, l. repeat split; assumption. }
    all: unfold analyze_content, analyze_content_try; rewrite B;
      unfold bind, lift, tell, ret, try_catch, result;
      match goal with
      | |- context [negb (truthy ?v)] => destruct (negb (truthy v))
      end;
      try (exists bad_request; split; [reflexivity | right; left; reflexivity]);
      match goal with
      | |- context [less_than_10 ?f ?v] =>
          destruct (less_than_10 f v) as [[|] | e]
      end;
      try (exists bad_request; split; [reflexivity | right; left; reflexivity]);
      cbn [call_substring fst];
      match goal with
      | |- context [on_error ?e] =>
          exists (on_error e); split; [reflexivity|];
          destruct (Err e) as [H | [H | H]]; rewrite H; tauto
      end.
  - exists bad_request. rewrite (route_absent _ _ env req_body B).
    split; [reflexivity | right; left; reflexivity].
  - unfold analyze_content, analyze_content_try. rewrite B.
    exists (on_error e). split; [reflexivity|].
    destruct (Err e) as [H | [H | H]]; rewrite H; tauto.
Qed.

Lemma on_error_plain (e : Error) :
  ~ Contains (message e) (js "API key") ->
  ~ Contains (message e) (js "rate limit") ->
  on_error e =
  mkResponse 500 (ErrorBody (js "Analysis temporarily unavailable")).
Proof.
  intros A R. unfold on_error.
  now rewrite (includes_false _ _ A), (includes_false _ _ R).
Qed.

(** X11: provided the failures of the host's comparison do not mention
    "API key" or "rate limit", the route never answers 429 and never
    answers "Service configuration error": the first two branches of its
    [catch] block are not reached. *)
Theorem route_never_429 (env : Env) (req_body : Json) :
  (forall j e, coerced_below_ten j = Throw e ->
               ~ Contains (message e) (js "API key") /\
               ~ Contains (message e) (js "rate limit")) ->
  exists r,
    result (route env req_body) = Normal r /\
    (status r = 200%nat \/
     r = mkResponse 400
           (ErrorBody
              (js "Content is required and must be at least 10 characters long")) \/
     r = mkResponse 500 (ErrorBody (js "Analysis temporarily unavailable"))).
Proof.
  intros Host.
  assert (Cmp : forall v e,
            less_than_10 coerced_below_ten v = Throw e ->
            on_error e =
            mkResponse 500 (ErrorBody (js "Analysis temporarily unavailable"))).
  { intros v e H. unfold less_than_10 in H.
    destruct v as [[| b | n | s | a | ms]|]; try discriminate H;
      apply Host in H; now apply on_error_plain. }
  destruct (destructure_content req_body) as [[c|] | e] eqn:B.
  - destruct c as [| b | n | s | a | ms].
    4: { destruct (Nat.lt_ge_cases (List.length s) 10) as [L | L].
         - exists bad_request.
           rewrite (route_short_string _ _ env req_body s B L).
           split; [reflexivity | right; left; reflexivity].
         - destruct (route_long_string_ok env req_body s B L)
             as [l [_ [_ R]]].
           eexists. rewrite R. split; [reflexivity | now left]. }
    all: unfold analyze_content, analyze_content_try; rewrite B;
      unfold bind, lift, tell, ret, try_catch, result;
      match goal with
      | |- context [negb (truthy ?v)] => destruct (negb (truthy v))
      end;
      try (exists bad_request; split; [reflexivity | right; left; reflexivity]);
      match goal with
      | |- context [less_than_10 ?f ?v] =>
          destruct (less_than_10 f v) as [[|] | e] eqn:LT
      end;
      try (exists bad_request; split; [reflexivity | right; left; reflexivity]);
      cbn [call_substring fst];
      (eexists; split; [reflexivity|]; right; right;
       first [reflexivity | exact (Cmp _ _ LT)]).
  - exists bad_request. rewrite (route_absent _ _ env req_body B).
    split; [reflexivity | right; left; reflexivity].
  - unfold analyze_content, analyze_content_try. rewrite B.
    destruct req_body; try discriminate B. injection B as <-.
    eexists. split; [reflexivity|]. right; right. reflexivity.
Qed.

(** X8: an empty [OPENAI_API_KEY] counts as no key: the resolver returns the
    generator's result without a request to the API, and [GET /health]
    reports [openaiConfigured: false]. *)
Theorem empty_key_counts_as_missing
        (env : Env) (proc : Process) (content : jsstring) :
  OPENAI_API_KEY env = Some [] ->
  result (resolver env (JStr content)) = fallback (JStr content) /\
  existsb is_external_call (trace (resolver env (JStr content))) = false /\
  field (payload (health_route env proc)) "openaiConfigured" =
    Some (JBool false).
Proof.
  intros H.
  assert (K : no_api_key env = true) by (unfold no_api_key; now rewrite H).
  rewrite (resolver_without_key _ env _ K).
  unfold health_route, field, payload. rewrite K. repeat split.
Qed.



End Route.

(** *** The earlier copy of the server *)

Section Legacy.

Variable unicode_toLowerCase : jsstring -> jsstring.
Variable coerced_below_ten : Json -> completion bool.
Variable module_missing : bool.

Local Notation resolver := (analyzeWithOpenAI unicode_toLowerCase).
Local Notation legacy_resolver :=
  (legacy_analyzeWithOpenAI unicode_toLowerCase module_missing).
Local Notation legacy_route :=
  (legacy_analyze_content unicode_toLowerCase coerced_below_ten
     module_missing).

Lemma legacy_route_long_string (env : Env) (req_body : Json) (s : jsstring) :
  destructure_content req_body = Normal (Some (JStr s)) ->
  (10 <= List.length s)%nat ->
  legacy_route env req_body =
  try_catch
    (tell (ConsoleLog (substring0 100 s)) ;;;
     suggestions <- legacy_resolver env (JStr s) ;;
     ret (mkResponse 200 (AnalysisBody suggestions (now env) undefined)))
    (fun error =>
       tell (ConsoleError (js "Analysis error:") error) ;;;
       ret (on_error error)).
Proof.
  intros H L. unfold legacy_analyze_content, legacy_analyze_content_try.
  rewrite H. destruct s as [|x s]; [simpl in L; lia|].
  unfold bind at 1. unfold lift at 1.
  unfold less_than_10, get_length. cbn [truthy negb].
  rewrite below_ten_of_nat.
  apply Nat.ltb_ge in L. rewrite L.
  unfold call_substring, bind, lift, tell, ret, try_catch.
  destruct (legacy_analyzeWithOpenAI _ _ _ _) as [[r | e] t]; reflexivity.
Qed.

(** X21: in the earlier copy, valid content sent while no key is
    configured is answered 500 "Service configuration error" whenever
    [require('openai')] succeeds, whether or not the client could be
    built: the key is tested before the client is built, the resolver
    throws, and no request goes to the API. *)
Theorem legacy_missing_key_answers_500
        (env : Env) (req_body : Json) (content : jsstring) :
  destructure_content req_body = Normal (Some (JStr content)) ->
  (10 <= List.length content)%nat ->
  require_openai module_missing env = Normal tt ->
  no_api_key env = true ->
  legacy_route env req_body =
  (Normal (mkResponse 500 (ErrorBody (js "Service configuration error"))),
   [ConsoleLog (substring0 100 content);
    ResolverCall (JStr content);
    ConsoleError (js "Analysis error:")
      (mkError (js "OpenAI API key not configured"))]).
Proof.
  intros B L R K. rewrite (legacy_route_long_string env req_body content B L).
  unfold legacy_analyzeWithOpenAI. rewrite R, K. reflexivity.
Qed.

(** X22: with a key configured and a client that loads, the earlier resolver
    and the current one do the same: same result, same trace. *)
Theorem legacy_agrees_with_key
        (env : Env) (create : jsstring -> reply) (content : Json) :
  no_api_key env = false ->
  openai env = Normal create ->
  legacy_resolver env content = resolver env content.
Proof.
  intros K O.
  unfold legacy_analyzeWithOpenAI, require_openai, analyzeWithOpenAI.
  rewrite K, O. unfold bind, lift, tell, try_catch.
  destruct (ask_openai _ create content) as [[r | e] t]; reflexivity.
Qed.

End Legacy.

(** *** The middleware and the status routes *)

(** X18: the CORS [origin] function allows every origin, listed or not, with
    one call of its callback. *)
Theorem cors_allows_every_origin (origin : option jsstring) :
  cors_origin origin = [(None, true)].
Proof.
  unfold cors_origin. destruct origin as [o|]; [|reflexivity].
  destruct (negb _); [reflexivity|]. now destruct (_ || _).
Qed.

Lemma variable_is_spec (v : option jsstring) (lit : jsstring) :
  variable_is v lit = true <-> v = Some lit.
Proof.
  destruct v as [s|]; simpl; [|split; discriminate].
  rewrite str_eqb_eq. split; [now intros -> | now intros [= ->]].
Qed.

(** X19: unless [NODE_ENV] is exactly "development", the answer of the error
    middleware does not depend on the failure: its message is withheld. *)
Theorem error_middleware_withholds_message
        (proc : Process) (e1 e2 : Error) :
  NODE_ENV proc <> Some (js "development") ->
  result (error_middleware proc e1) = result (error_middleware proc e2) /\
  result (error_middleware proc e1) =
  Normal (mkJsonResponse 500
            (JObj [ (js "error", JStr (js "Internal server error"));
                    (js "message", JStr (js "Something went wrong")) ])).
Proof.
  intros H. unfold error_middleware.
  destruct (variable_is (NODE_ENV proc) (js "development")) eqn:E.
  - apply variable_is_spec in E. contradiction.
  - split; reflexivity.
Qed.

(** X20: with [NODE_ENV] unset or empty, [GET /] reports the environment
    "development", while the error middleware treats the process as not in
    development and withholds the message of the failure. *)
Theorem unset_environment_reported_as_development
        (env : Env) (proc : Process) (error : Error) :
  NODE_ENV proc = None \/ NODE_ENV proc = Some [] ->
  field (payload (root_route env proc)) "environment" =
    Some (JStr (js "development")) /\
  (exists r, result (error_middleware proc error) = Normal r /\
             field (payload r) "message" =
             Some (JStr (js "Something went wrong"))).
Proof.
  intros H. unfold root_route, error_middleware.
  destruct H as [-> | ->]; (split; [reflexivity|]);
    eexists; (split; [reflexivity | reflexivity]).
Qed.

(** *** The further properties on concrete requests *)

Lemma clean_up_without_fence_witness :
  clean_up (js "  [] ") = trim (js "  [] ").
Proof.
  apply (clean_up_without_fence (js "  [] ")).
  intros C. apply includes_spec in C. vm_compute in C. discriminate C.
Defined.

Lemma fallback_keyword_suggestions_only_witness :
  exists l,
    generateFallbackSuggestions ascii_host_lower
      (JStr (js "Big DATA is here")) = Normal l /\
    forall s, In s l ->
      (exists f,
         In f (matched_families
                 (toLowerCase ascii_host_lower (js "Big DATA is here"))) /\
         s = suggestion_of f) /\
      ~ In s default_suggestions.
Proof.
  apply (fallback_keyword_suggestions_only ascii_host_lower
           (js "Big DATA is here") (js "data")).
  - left. reflexivity.
  - apply includes_spec. reflexivity.
Defined.

Lemma fallback_ignores_ascii_case_witness :
  generateFallbackSuggestions ascii_host_lower (JStr (js "Big DATA")) =
  generateFallbackSuggestions ascii_host_lower (JStr (js "big data")).
Proof.
  apply (fallback_ignores_ascii_case ascii_host_lower
           (js "Big DATA") (js "big data")); reflexivity.
Defined.

Lemma api_failure_absorbed_witness :
  result (analyzeWithOpenAI ascii_host_lower env_rejecting
            (JStr example_content)) =
    generateFallbackSuggestions ascii_host_lower (JStr example_content) /\
  In (ConsoleError (js "OpenAI API error:")
        (mkError (js "429 rate limit exceeded")))
     (trace (analyzeWithOpenAI ascii_host_lower env_rejecting
               (JStr example_content))).
Proof.
  apply (api_failure_absorbed ascii_host_lower env_rejecting
           (fun _ => Rejected (mkError (js "429 rate limit exceeded")))
           example_content (mkError (js "429 rate limit exceeded")));
    [reflexivity | reflexivity | left; reflexivity].
Defined.

Lemma load_failure_absorbed_witness :
  result (analyzeWithOpenAI ascii_host_lower env_failing_load
            (JStr example_content)) =
    generateFallbackSuggestions ascii_host_lower (JStr example_content) /\
  existsb is_external_call
    (trace (analyzeWithOpenAI ascii_host_lower env_failing_load
              (JStr example_content))) = false /\
  In (ConsoleError (js "OpenAI API error:")
        (mkError (js "Cannot find module 'openai'")))
     (trace (analyzeWithOpenAI ascii_host_lower env_failing_load
               (JStr example_content))).
Proof.
  apply (load_failure_absorbed ascii_host_lower env_failing_load
           example_content (mkError (js "Cannot find module 'openai'")));
    reflexivity.
Defined.

Lemma non_array_falls_back_witness :
  JSON_parse (clean_up (js "null")) = Some JNull /\
  result (analyzeWithOpenAI ascii_host_lower (env_answering (js "null"))
            (JStr example_content)) =
    generateFallbackSuggestions ascii_host_lower (JStr example_content).
Proof.
  split; [reflexivity|].
  apply (non_array_falls_back ascii_host_lower (env_answering (js "null"))
           (fun _ => Completed (Some (js "null"))) example_content
           (js "null") JNull); try reflexivity.
  intros a. discriminate.
Defined.

Lemma resolver_throws_on_non_string_witness :
  exists e,
    result (analyzeWithOpenAI ascii_host_lower (env_answering (js "[]"))
              (JNum (Num false 12345 0))) = Throw e /\
    generateFallbackSuggestions ascii_host_lower (JNum (Num false 12345 0)) =
      Throw e.
Proof.
  apply (resolver_throws_on_non_string ascii_host_lower
           (env_answering (js "[]")) (JNum (Num false 12345 0))).
  reflexivity.
Defined.

Lemma health_flag_tells_external_call_witness :
  field (payload (health_route (env_answering (js "[]")) production_process))
        "openaiConfigured" =
  Some (JBool (existsb is_external_call
                 (trace (analyzeWithOpenAI ascii_host_lower
                           (env_answering (js "[]"))
                           (JStr example_content))))).
Proof.
  apply (health_flag_tells_external_call ascii_host_lower
           (env_answering (js "[]")) production_process
           (fun _ => Completed (Some (js "[]"))) example_content).
  reflexivity.
Defined.

Lemma long_string_always_200_witness :
  exists l,
    result (analyze_content ascii_host_lower ascii_host_below_ten
              env_rejecting example_body) =
    Normal (mkResponse 200
              (AnalysisBody l (now env_rejecting)
                 (Some (JNum (of_nat (List.length example_content)))))) /\
    (1 <= List.length l <= 2)%nat.
Proof.
  apply (long_string_always_200 ascii_host_lower ascii_host_below_ten
           env_rejecting example_body example_content).
  - reflexivity.
  - vm_compute. lia.
Defined.

Lemma route_never_429_witness :
  exists r,
    result (analyze_content ascii_host_lower ascii_host_below_ten
              env_rejecting numeric_body) = Normal r /\
    (status r = 200%nat \/
     r = mkResponse 400
           (ErrorBody
              (js "Content is required and must be at least 10 characters long")) \/
     r = mkResponse 500 (ErrorBody (js "Analysis temporarily unavailable"))).
Proof.
  apply (route_never_429 ascii_host_lower ascii_host_below_ten
           env_rejecting numeric_body).
  intros j e H. discriminate H.
Defined.

Lemma empty_key_counts_as_missing_witness :
  result (analyzeWithOpenAI ascii_host_lower env_empty_key
            (JStr example_content)) =
    generateFallbackSuggestions ascii_host_lower (JStr example_content) /\
  existsb is_external_call
    (trace (analyzeWithOpenAI ascii_host_lower env_empty_key
              (JStr example_content))) = false /\
  field (payload (health_route env_empty_key production_process))
        "openaiConfigured" = Some (JBool false).
Proof.
  apply (empty_key_counts_as_missing ascii_host_lower env_empty_key
           production_process example_content).
  reflexivity.
Defined.

Lemma legacy_missing_key_answers_500_witness :
  require_openai false env_keyless_client_fails = Normal tt /\
  result (legacy_analyze_content ascii_host_lower ascii_host_below_ten false
            env_keyless_client_fails example_body) =
  Normal (mkResponse 500 (ErrorBody (js "Service configuration error"))).
Proof.
  split; [reflexivity|].
  rewrite (legacy_missing_key_answers_500 ascii_host_lower
             ascii_host_below_ten false env_keyless_client_fails
             example_body example_content);
    [reflexivity | reflexivity | vm_compute; lia | reflexivity | reflexivity].
Defined.

Lemma legacy_agrees_with_key_witness :
  legacy_analyzeWithOpenAI ascii_host_lower false
    (env_answering fenced_example) (JStr example_content) =
  analyzeWithOpenAI ascii_host_lower (env_answering fenced_example)
    (JStr example_content).
Proof.
  apply (legacy_agrees_with_key ascii_host_lower false
           (env_answering fenced_example)
           (fun _ => Completed (Some fenced_example))); reflexivity.
Defined.

Lemma error_middleware_withholds_message_witness :
  result (error_middleware production_process both_patterns_error) =
  result (error_middleware production_process
            (mkError (js "connect ECONNREFUSED"))) /\
  result (error_middleware production_process both_patterns_error) =
  Normal (mkJsonResponse 500
            (JObj [ (js "error", JStr (js "Internal server error"));
                    (js "message", JStr (js "Something went wrong")) ])).
Proof.
  apply (error_middleware_withholds_message production_process
           both_patterns_error (mkError (js "connect ECONNREFUSED"))).
  intros H. vm_compute in H. discriminate H.
Defined.

Lemma unset_environment_reported_as_development_witness :
  field (payload (root_route env_without_key unset_process)) "environment" =
    Some (JStr (js "development")) /\
  (exists r,
     result (error_middleware unset_process both_patterns_error) = Normal r /\
     field (payload r) "message" = Some (JStr (js "Something went wrong"))).
Proof.
  apply (unset_environment_reported_as_development env_without_key
           unset_process both_patterns_error).
  left. reflexivity.
Defined.

